(** * fg-calendar-reminder: the reminder daemon, embedded and verified

    A shallow embedding of [fg-calendar-reminder.py].  The pure parts
    (sleep hours, minutes left, the notification texts) are Rocq functions;
    the effectful parts ([monitor_events], [create_daemon]) run in a small
    trace-and-exception monad whose inputs are what the outside world
    answers in each cycle (clock readings, the Calendar API reply). *)

From Stdlib Require Import ZArith List String Ascii Bool Lia DecimalString.
From Stdlib Require Import Permutation DecimalPos.
Import ListNotations.
Open Scope string_scope.
Open Scope Z_scope.

(** ** Python built-ins used by the program *)

Module Py.

(** ["%d" % n]: an [int] printed in decimal, with a leading minus sign
    when negative. *)
Definition str_of_int (n : Z) : string := NilZero.string_of_int (Z.to_int n).

(** [s[:n]]: the first [n] characters of [s] (all of [s] when shorter).
    One character of the model stands for one character of the [str]. *)
Definition slice_to (n : nat) (s : string) : string := substring 0 n s.

(** [sep.join(parts)]. *)
Definition join (sep : string) (parts : list string) : string :=
  String.concat sep parts.

(** The line feed, ["\n"]. *)
Definition newline : string := String "010" EmptyString.

(** [x in xs] on a list of [int]. *)
Definition contains (x : Z) (xs : list Z) : bool := existsb (Z.eqb x) xs.

(** [round(n / d)] for [int] [n] and positive [int] [d].

    [n / d] is the double nearest to the quotient and [round] sends a
    double to the nearest integer, ties to even.  The program only rounds
    [s / 60] with [0 <= s < 86400]: at [s = 60 k + 30] the quotient
    [k + 0.5] is a double and is rounded as a tie; elsewhere the quotient
    is at least [1/60] away from every tie, far more than the error of
    the division, so the double rounds as the exact quotient does.  The
    result is therefore the exact quotient rounded half to even. *)
Definition round_div (n d : Z) : Z :=
  let q := n / d in
  let r := n mod d in
  if 2 * r <? d then q
  else if d <? 2 * r then q + 1
  else if Z.even q then q else q + 1.

(** [divmod(a, b)] on [int]: floor division and its remainder. *)
Definition divmod (a b : Z) : Z * Z := (a / b, a mod b).

(** The number of occurrences of character [c] in [s] ([s.count(c)]). *)
Fixpoint count_char (c : ascii) (s : string) : nat :=
  match s with
  | EmptyString => 0%nat
  | String a rest => ((if Ascii.eqb a c then 1 else 0) + count_char c rest)%nat
  end.

End Py.

(** Python's exceptions, by the three classes [create_daemon] tells apart:
    [SystemExit], the subclasses of [Exception] (with the class name and
    [str(ex)]), and every other [BaseException]. *)
Inductive exn : Type :=
| SystemExit (arg : string)
| Exception (cls : string) (msg : string)
| BaseException (cls : string) (msg : string).

Definition exn_str (ex : exn) : string :=
  match ex with
  | SystemExit arg => arg
  | Exception _ msg => msg
  | BaseException _ msg => msg
  end.

(** ** The [datetime] module *)

Module Datetime.

(** [datetime.timedelta]: always normalised, [0 <= seconds < 86400] and
    [0 <= microseconds < 1000000], the sign carried by [days]. *)
Record timedelta : Type := mk_timedelta {
  days : Z;
  seconds : Z;
  microseconds : Z
}.

(** [timedelta(days, seconds, microseconds)] on [int] arguments: the
    carrying done by [timedelta.__new__]. *)
Definition timedelta_new (days0 seconds0 microseconds0 : Z) : timedelta :=
  let d := days0 in
  let '(dd, ss) := Py.divmod seconds0 (24 * 3600) in
  let d := d + dd in
  let s := ss in
  let '(sec1, us1) := Py.divmod microseconds0 1000000 in
  let '(dd1, sec2) := Py.divmod sec1 (24 * 3600) in
  let d := d + dd1 in
  let s := s + sec2 in
  let '(sec3, us) := Py.divmod us1 1000000 in
  let s := s + sec3 in
  let '(dd2, s) := Py.divmod s (24 * 3600) in
  let d := d + dd2 in
  mk_timedelta d s us.

(** [td.total_seconds()] scaled to microseconds (the program never calls
    it; the theorems use it to say how far apart two instants are). *)
Definition total_microseconds (td : timedelta) : Z :=
  (days td * 86400 + seconds td) * 1000000 + microseconds td.

(** [datetime.datetime].  [tzinfo] is the UTC offset in seconds of an
    aware value, [None] for a naive one. *)
Record datetime : Type := mk_datetime {
  year : Z;
  month : Z;
  day : Z;
  hour : Z;
  minute : Z;
  second : Z;
  microsecond : Z;
  tzinfo : option Z
}.

Definition is_leap (y : Z) : bool :=
  (y mod 4 =? 0) && (negb (y mod 100 =? 0) || (y mod 400 =? 0)).

Definition days_before_year (y : Z) : Z :=
  let y1 := y - 1 in
  y1 * 365 + y1 / 4 - y1 / 100 + y1 / 400.

Definition DAYS_BEFORE_MONTH : list Z :=
  [0; 31; 59; 90; 120; 151; 181; 212; 243; 273; 304; 334].

Definition days_before_month (y m : Z) : Z :=
  nth (Z.to_nat (m - 1)) DAYS_BEFORE_MONTH 0
  + (if (2 <? m) && is_leap y then 1 else 0).

Definition days_in_month (y m : Z) : Z :=
  if (m =? 2) && is_leap y then 29
  else nth (Z.to_nat (m - 1)) [31; 28; 31; 30; 31; 30; 31; 31; 30; 31; 30; 31] 0.

Definition ymd2ord (y m d : Z) : Z :=
  days_before_year y + days_before_month y m + d.

(** [dt.toordinal()]. *)
Definition toordinal (dt : datetime) : Z :=
  ymd2ord (year dt) (month dt) (day dt).

(** [dt.replace(tzinfo=None)]. *)
Definition replace_tzinfo_None (dt : datetime) : datetime :=
  mk_datetime (year dt) (month dt) (day dt) (hour dt) (minute dt)
              (second dt) (microsecond dt) None.

(** [a - b] on two [datetime]s ([datetime.__sub__]); mixing a naive and
    an aware operand raises [TypeError]. *)
Definition sub (a b : datetime) : exn + timedelta :=
  let days1 := toordinal a in
  let days2 := toordinal b in
  let secs1 := second a + minute a * 60 + hour a * 3600 in
  let secs2 := second b + minute b * 60 + hour b * 3600 in
  let base := fun off =>
    timedelta_new (days1 - days2) (secs1 - secs2 + off)
                  (microsecond a - microsecond b) in
  match tzinfo a, tzinfo b with
  | None, None => inr (base 0)
  | Some myoff, Some otoff => inr (base (otoff - myoff))
  | _, _ => inl (Exception "TypeError"
                   "can't subtract offset-naive and offset-aware datetimes")
  end.

(** [datetime.now()]: the local wall clock.  Called without a [tz]
    argument it yields a naive value, whatever the reading carries. *)
Definition now (clock : datetime) : datetime := replace_tzinfo_None clock.

(** Microseconds from the start of ordinal day 0 to the wall-clock
    reading of [dt] (not a method of the module: the theorems use it to
    say how far apart two naive values are). *)
Definition instant (dt : datetime) : Z :=
  ((toordinal dt * 86400 + hour dt * 3600 + minute dt * 60 + second dt)
   * 1000000) + microsecond dt.

(** A reader for the two shapes of start the Calendar API sends,
    [YYYY-MM-DD] and [YYYY-MM-DDTHH:MM:SS] with an optional [+HH:MM] or
    [-HH:MM] offset, on which every [datetime.fromisoformat] since
    Python 3.7 agrees.  Anything else is refused here with [ValueError],
    also where a later Python reads more; it serves the worked examples,
    the theorems hold for any reader. *)
Definition digit (c : ascii) : option Z :=
  let n := Z.of_nat (nat_of_ascii c) in
  if (48 <=? n) && (n <=? 57) then Some (n - 48) else None.

Fixpoint digits (s : string) (acc : Z) : option Z :=
  match s with
  | EmptyString => Some acc
  | String c rest =>
      match digit c with
      | Some v => digits rest (acc * 10 + v)
      | None => None
      end
  end.

Definition field (s : string) (pos len : nat) : option Z :=
  let f := substring pos len s in
  if (String.length f =? len)%nat then digits f 0 else None.

Definition char_at (s : string) (pos : nat) (c : ascii) : bool :=
  match String.get pos s with
  | Some a => Ascii.eqb a c
  | None => false
  end.

Definition invalid (s : string) : exn :=
  Exception "ValueError" ("Invalid isoformat string: '" ++ s ++ "'").

Definition check_date (s : string) (y m d : Z) : exn + unit :=
  if (1 <=? y) && (y <=? 9999) && (1 <=? m) && (m <=? 12)
     && (1 <=? d) && (d <=? days_in_month y m)
  then inr tt else inl (invalid s).

Definition check_time (s : string) (h mi sec : Z) : exn + unit :=
  if (h <=? 23) && (mi <=? 59) && (sec <=? 59)
  then inr tt else inl (invalid s).

Definition parse_date (s : string) : exn + (Z * Z * Z) :=
  match field s 0 4, field s 5 2, field s 8 2 with
  | Some y, Some m, Some d =>
      if char_at s 4 "-" && char_at s 7 "-" then
        match check_date s y m d with
        | inr _ => inr (y, m, d)
        | inl ex => inl ex
        end
      else inl (invalid s)
  | _, _, _ => inl (invalid s)
  end.

Definition parse_offset (s : string) : exn + option Z :=
  let n := String.length s in
  if (n =? 19)%nat then inr None
  else if (n =? 25)%nat then
    match field s 20 2, field s 23 2 with
    | Some oh, Some om =>
        if char_at s 22 ":" && (oh <=? 23) && (om <=? 59) then
          if char_at s 19 "+" then inr (Some (oh * 3600 + om * 60))
          else if char_at s 19 "-" then inr (Some (- (oh * 3600 + om * 60)))
          else inl (invalid s)
        else inl (invalid s)
    | _, _ => inl (invalid s)
    end
  else inl (invalid s).

Definition fromisoformat_basic (s : string) : exn + datetime :=
  match parse_date s with
  | inl ex => inl ex
  | inr (y, m, d) =>
      if (String.length s =? 10)%nat then
        inr (mk_datetime y m d 0 0 0 0 None)
      else
        match field s 11 2, field s 14 2, field s 17 2, parse_offset s with
        | Some h, Some mi, Some sec, inr tz =>
            if char_at s 13 ":" && char_at s 16 ":" then
              match check_time s h mi sec with
              | inr _ => inr (mk_datetime y m d h mi sec 0 tz)
              | inl ex => inl ex
              end
            else inl (invalid s)
        | _, _, _, _ => inl (invalid s)
        end
  end.

End Datetime.


(** ** Settings, events and alerts *)

(** The module-level settings of the program. *)
Record config : Type := mk_config {
  NOTIFY_TIME_MS : string;
  MINUTES_LEFT : list Z;
  SLEEP_HOURS : list (Z * Z);
  AUDIO_PLAY_CMD : list string
}.

(** The settings as the repository ships them. *)
Definition settings : config :=
  mk_config "50000" [1; 5; 10] [(20, 6)] ["play"; "5glasses.ogg"].

(** The dict under an event's ['start'] key: ['dateTime'] for a timed
    event, ['date'] for an all-day one. *)
Record event_start : Type := mk_event_start {
  st_dateTime : option string;
  st_date : option string
}.

(** One item of the Calendar API reply, a dict; a key that is absent is
    [None]. *)
Record event : Type := mk_event {
  ev_start : option event_start;
  ev_summary : option string
}.

(** [class Alert]. *)
Record Alert : Type := mk_Alert {
  summary : string;
  date : string;
  minutes_left : Z
}.

(** [Alert.__str__]. *)
Definition Alert_str (self : Alert) : string :=
  "In " ++ Py.str_of_int (minutes_left self) ++ " minutes ["
        ++ date self ++ "] -> " ++ summary self.

(** ** Effects *)

(** The calls the program makes to the outside world, in order.  A call
    is recorded when it is made, whatever comes back: [Popen argv] is the
    call [subprocess.Popen(argv)], whether or not the command can be
    started. *)
Inductive effect : Type :=
| Fork
| Setsid
| CreateService
| EventsList (calendarId timeMin : string) (maxResults : Z)
             (singleEvents : bool) (orderBy : string)
| Popen (argv : list string)
| LogRecord (level : Z) (msg : string)
| Sleep (secs : Z).

(** A computation: the effects performed, then an exception or a value. *)
Definition M (A : Type) : Type := (list effect * (exn + A))%type.

Definition ret {A : Type} (a : A) : M A := ([], inr a).

Definition raise {A : Type} (ex : exn) : M A := ([], inl ex).

Definition bind {A B : Type} (m : M A) (k : A -> M B) : M B :=
  match m with
  | (t, inl ex) => (t, inl ex)
  | (t, inr a) => let '(t', r) := k a in ((t ++ t')%list, r)
  end.

Definition perform (e : effect) : M unit := ([e], inr tt).

(** A library call that returns or raises without an effect of its own. *)
Definition lift {A : Type} (r : exn + A) : M A := ([], r).

Notation "x <- m ;; k" := (bind m (fun x => k))
  (at level 61, m at next level, right associativity).
Notation "m ;;; k" := (bind m (fun _ => k))
  (at level 61, right associativity).

Definition trace {A : Type} (m : M A) : list effect := fst m.
Definition result {A : Type} (m : M A) : exn + A := snd m.

(** ** Logging *)

Module Logging.
Definition DEBUG : Z := 10.
Definition INFO : Z := 20.
Definition WARNING : Z := 30.
Definition ERROR : Z := 40.

(** [logging.basicConfig(level=logging.ERROR, ...)]. *)
Definition level : Z := ERROR.

(** A call at level [lvl] produces a record only when the level is
    enabled. *)
Definition records (lvl : Z) (msg : string) : list effect :=
  if level <=? lvl then [LogRecord lvl msg] else [].

Definition log (lvl : Z) (msg : string) : M unit := (records lvl msg, inr tt).
Definition debug : string -> M unit := log DEBUG.
Definition info : string -> M unit := log INFO.
Definition warn : string -> M unit := log WARNING.
Definition error : string -> M unit := log ERROR.
End Logging.

(** ** One cycle of the outside world *)

(** What the world answers during one pass of the loop of [create_daemon]:
    - [service]: [create_service()] returns ([None]) or raises;
    - [utcnow_isoformat]: [datetime.utcnow().isoformat()];
    - [clock]: the reading of [datetime.now()] in [monitor_events];
    - [events_result]: the reply of [events().list(...).execute()], an
      exception or a dict whose ['items'] key may be absent;
    - [clock_after]: the reading of [datetime.now()] after
      [monitor_events] has returned;
    - [launch]: what [subprocess.Popen(argv)] does with a command, start
      it ([None]) or raise, as it does when the program is not installed
      or may not be run. *)
Record cycle : Type := mk_cycle {
  service : option exn;
  utcnow_isoformat : string;
  clock : Datetime.datetime;
  events_result : exn + option (list event);
  clock_after : Datetime.datetime;
  launch : list string -> option exn
}.

(** The outcome of [os.fork()]. *)
Inductive fork_result : Type :=
| ForkError (errno : Z) (strerror : string)
| ForkChild
| ForkParent (pid : Z).

(** How a call of [create_daemon] ends: it returns a code, lets an
    exception out, ends the process with [os._exit], or is still looping
    when the scripted cycles are used up. *)
Inductive outcome : Type :=
| Returned (code : Z)
| Raised (ex : exn)
| ProcessExit (code : Z)
| Running.

(** ** The program *)

Section Program.

(** [datetime.datetime.fromisoformat].  Which strings it reads depends on
    the Python that runs the program, so the reader is a parameter: it
    returns a [datetime] or raises. *)
Variable fromisoformat : string -> exn + Datetime.datetime.

(** The settings in force. *)
Variable cfg : config.

(** [create_service()]: credentials and client set-up, opaque here. *)
Definition create_service (c : cycle) : M unit :=
  perform CreateService ;;;
  match service c with
  | None => ret tt
  | Some ex => raise ex
  end.

(** [service.events().list(calendarId='primary', timeMin=now,
    maxResults=10, singleEvents=True, orderBy='startTime').execute()]. *)
Definition events_list_execute (c : cycle) (timeMin : string)
  : M (option (list event)) :=
  perform (EventsList "primary" timeMin 10 true "startTime") ;;;
  lift (events_result c).

(** [d[key]] on a dict: [KeyError] when the key is absent. *)
Definition getitem {A : Type} (key : string) (v : option A) : M A :=
  match v with
  | Some a => ret a
  | None => raise (Exception "KeyError" ("'" ++ key ++ "'"))
  end.

(** The loop [for start, end in SLEEP_HOURS] of [monitor_events]: [true]
    when some pair sets [skip] and the function returns early. *)
Fixpoint sleep_hours_skip (cur_hour : Z) (hours : list (Z * Z)) : bool :=
  match hours with
  | [] => false
  | (start, end_) :: rest =>
      let skip :=
        if (end_ <? start) && ((start <=? cur_hour) || (cur_hour <=? end_))
        then true
        else if (start <=? cur_hour) && (cur_hour <=? end_) then true
        else false in
      if skip then true else sleep_hours_skip cur_hour rest
  end.

(** [event['start'].get('dateTime', event['start'].get('date'))]. *)
Definition event_start_get (ev : event) : M (option string) :=
  st <- getitem "start" (ev_start ev) ;;
  ret (match st_dateTime st with
       | Some s => Some s
       | None => st_date st
       end).

(** [round((start_datetime.replace(tzinfo=None) - now_datetime).seconds / 60)]. *)
Definition mins_left (start_datetime now_datetime : Datetime.datetime)
  : exn + Z :=
  match Datetime.sub (Datetime.replace_tzinfo_None start_datetime)
                     now_datetime with
  | inl ex => inl ex
  | inr td => inr (Py.round_div (Datetime.seconds td) 60)
  end.

(** The loop [for event in events] of [monitor_events], started with the
    alerts collected so far. *)
Fixpoint collect_alerts (now_datetime : Datetime.datetime)
         (events : list event) (alerts : list Alert) : M (list Alert) :=
  match events with
  | [] => ret alerts
  | ev :: rest =>
      start <- event_start_get ev ;;
      logged <- getitem "summary" (ev_summary ev) ;;
      Logging.debug (match start with Some s => s | None => "None" end) ;;;
      start <- match start with
               | Some s => ret s
               | None => raise (Exception "TypeError"
                                  "fromisoformat: argument must be str")
               end ;;
      start_datetime <- lift (fromisoformat start) ;;
      m <- lift (mins_left start_datetime now_datetime) ;;
      if Py.contains m (MINUTES_LEFT cfg) then
        title <- getitem "summary" (ev_summary ev) ;;
        collect_alerts now_datetime rest
                       (alerts ++ [mk_Alert title start m])%list
      else collect_alerts now_datetime rest alerts
  end.

(** [subprocess.Popen(argv)]: the call is made, and it raises when the
    command cannot be started; the program does not wait for the process
    it starts. *)
Definition popen (launch : list string -> option exn) (argv : list string)
  : M unit :=
  perform (Popen argv) ;;;
  match launch argv with
  | None => ret tt
  | Some ex => raise ex
  end.

(** The end of [monitor_events], reached with a non-empty [alerts]: one
    [notify-send], then the sound. *)
Definition display_reminder (launch : list string -> option exn)
           (alerts : list Alert) : M unit :=
  Logging.debug "Displaying reminder" ;;;
  match alerts with
  | [alert] =>
      popen launch ["notify-send"; "-t"; NOTIFY_TIME_MS cfg;
                    "Upcoming event: " ++ Py.slice_to 50 (summary alert);
                    Alert_str alert]
  | _ =>
      popen launch ["notify-send"; "-t"; NOTIFY_TIME_MS cfg;
                    "Upcoming events: "
                      ++ Py.str_of_int (Z.of_nat (List.length alerts));
                    Py.join Py.newline (map Alert_str alerts)]
  end ;;;
  Logging.debug "Playing audio" ;;;
  popen launch (AUDIO_PLAY_CMD cfg).

(** [monitor_events()]. *)
Definition monitor_events (c : cycle) : M unit :=
  create_service c ;;;
  let now := utcnow_isoformat c ++ "Z" in
  let now_datetime := Datetime.now (clock c) in
  if sleep_hours_skip (Datetime.hour now_datetime) (SLEEP_HOURS cfg) then
    Logging.debug ("Sleep hour ["
                     ++ Py.str_of_int (Datetime.hour now_datetime)
                     ++ "] - skipping")
  else
    Logging.debug "Getting the upcoming 10 events" ;;;
    reply <- events_list_execute c now ;;
    let events := match reply with Some items => items | None => [] end in
    match events with
    | [] => Logging.debug "No upcoming events found."
    | _ => ret tt
    end ;;;
    alerts <- collect_alerts now_datetime events [] ;;
    match alerts with
    | [] => Logging.debug "No alerts found"
    | _ => display_reminder (launch c) alerts
    end.

(** [wait_time = 60 - datetime.datetime.now().second]. *)
Definition wait_time (now : Datetime.datetime) : Z :=
  60 - Datetime.second now.

(** The loop [while True] of [create_daemon], run on the scripted cycles
    of [world].  The loop has no exit of its own: a value is returned
    only when the script is used up with the loop still going. *)
Fixpoint daemon_loop (world : list cycle) : M unit :=
  match world with
  | [] => ret tt
  | c :: rest =>
      monitor_events c ;;;
      let wait := wait_time (Datetime.now (clock_after c)) in
      Logging.debug ("Sleeping for " ++ Py.str_of_int wait) ;;;
      perform (Sleep wait) ;;;
      daemon_loop rest
  end.

(** [create_daemon()]. *)
Definition create_daemon (fk : fork_result) (world : list cycle)
  : list effect * outcome :=
  match fk with
  | ForkError errno strerror =>
      ((Fork :: Logging.records Logging.ERROR
                 ("[Errno " ++ Py.str_of_int errno ++ "] " ++ strerror))%list,
       Raised (Exception "Exception"
                 (strerror ++ " [" ++ Py.str_of_int errno ++ "]")))
  | ForkParent pid =>
      ((Fork :: Logging.records Logging.INFO
                 ("Daemon has been started (PID=" ++ Py.str_of_int pid ++ ")"))%list,
       ProcessExit 0)
  | ForkChild =>
      let '(t, r) := daemon_loop world in
      let t := (Fork :: Setsid :: t)%list in
      match r with
      | inr _ => (t, Running)
      | inl (SystemExit arg) =>
          ((t ++ Logging.records Logging.WARNING
                   ("Exiting. Reason: " ++ exn_str (SystemExit arg))
              ++ Logging.records Logging.INFO "Exiting fg-calendar-reminder")%list,
           Returned 0)
      | inl (Exception cls msg) =>
          ((t ++ Logging.records Logging.ERROR
                   ("Unexpected exception: " ++ exn_str (Exception cls msg)))%list,
           Returned 1)
      | inl (BaseException cls msg) => (t, Raised (BaseException cls msg))
      end
  end.

(** [main()]: runs [create_daemon] and drops its value. *)
Definition main (fk : fork_result) (world : list cycle) : list effect :=
  fst (create_daemon fk world).

End Program.

(** ** [create_service], in full *)

(** The daemon above takes the outcome of [create_service] as an answer of
    the world.  Here is the function itself, on the token file and the
    calls it makes to the Google client libraries. *)
Module Service.

(** An OAuth [Credentials] object, by what [create_service] reads of it;
    [token] is the access token it carries. *)
Record credentials : Type := mk_credentials {
  valid : bool;
  expired : bool;
  refresh_token : option string;
  token : string
}.

(** Truth value of [creds.refresh_token]: [None] and the empty string are
    false. *)
Definition truthy (s : option string) : bool :=
  match s with
  | None => false
  | Some EmptyString => false
  | Some _ => true
  end.

(** The file [token.pickle]: absent, or what [pickle.load] makes of it, an
    exception or the credentials stored. *)
Definition token_file : Type := option (exn + credentials).

(** The calls that leave the process, in order. *)
Inductive action : Type :=
| Load (path : string)
| Refresh (creds : credentials)
| FromClientSecrets (path : string) (scopes : list string)
| RunLocalServer
| Dump (creds : credentials) (path : string)
| Build (serviceName version : string) (creds : credentials).

(** What the outside answers during one call:
    - [refresh]: the state of the credentials after
      [creds.refresh(Request())], or the exception it raises;
    - [client_secrets]: [InstalledAppFlow.from_client_secrets_file]
      returns a flow ([None]) or raises;
    - [local_server]: the credentials [flow.run_local_server()] returns,
      or the exception it raises;
    - [open_wb]: [open('token.pickle', 'wb')] succeeds ([None]) or raises;
    - [dump]: [pickle.dump(creds, token)] on the file just opened, and the
      closing of it, succeed ([None]) or raise;
    - [torn]: what [pickle.load] raises on the file a failed [dump] leaves
      behind, emptied by the opening and at best partly written;
    - [build]: [build('calendar', 'v3', credentials=creds)] returns the
      service ([None]) or raises. *)
Record answers : Type := mk_answers {
  refresh : credentials -> exn + credentials;
  client_secrets : option exn;
  local_server : exn + credentials;
  open_wb : option exn;
  dump : option exn;
  torn : exn;
  build : option exn
}.

Definition SCOPES : list string :=
  ["https://www.googleapis.com/auth/calendar.readonly"].

(** A computation on the token file: the calls made, the file afterwards,
    and an exception or a value. *)
Definition S (A : Type) : Type :=
  token_file -> list action * token_file * (exn + A).

Definition ret {A : Type} (a : A) : S A := fun f => ([], f, inr a).

Definition raise {A : Type} (ex : exn) : S A := fun f => ([], f, inl ex).

Definition bind {A B : Type} (m : S A) (k : A -> S B) : S B :=
  fun f =>
    match m f with
    | (t, f1, inl ex) => (t, f1, inl ex)
    | (t, f1, inr a) =>
        let '(t', f2, r) := k a f1 in ((t ++ t')%list, f2, r)
    end.

Definition call (a : action) : S unit := fun f => ([a], f, inr tt).

Definition returns {A : Type} (r : exn + A) : S A := fun f => ([], f, r).

Definition may_raise (r : option exn) : S unit :=
  match r with
  | None => ret tt
  | Some ex => raise ex
  end.

(** [os.path.exists('token.pickle')]. *)
Definition exists_token : S bool :=
  fun f => ([], f, inr (match f with Some _ => true | None => false end)).

(** [with open('token.pickle', 'rb') as token: creds = pickle.load(token)]. *)
Definition load_token : S credentials :=
  fun f =>
    ([Load "token.pickle"], f,
     match f with
     | Some r => r
     | None => inl (Exception "FileNotFoundError"
                      "[Errno 2] No such file or directory: 'token.pickle'")
     end).

(** [with open('token.pickle', 'wb') as token: pickle.dump(creds, token)].
    When the file cannot be opened it is left as it was.  Opening it
    empties it: when the dump then raises, the old credentials are gone
    and what is left does not load. *)
Definition dump_token (w : answers) (creds : credentials) : S unit :=
  fun f =>
    match open_wb w with
    | Some ex => ([Dump creds "token.pickle"], f, inl ex)
    | None =>
        match dump w with
        | Some ex => ([Dump creds "token.pickle"], Some (inl (torn w)), inl ex)
        | None => ([Dump creds "token.pickle"], Some (inr creds), inr tt)
        end
    end.

Declare Scope service_scope.
Delimit Scope service_scope with service.
Notation "x <- m ;; k" := (bind m (fun x => k)) : service_scope.
Notation "m ;;; k" := (bind m (fun _ => k)) : service_scope.

(** The [else] branch: [InstalledAppFlow.from_client_secrets_file(
    'credentials.json', SCOPES)] and [flow.run_local_server()], the
    consent screen in a browser. *)
Definition run_flow (w : answers) : S credentials :=
  (call (FromClientSecrets "credentials.json" SCOPES) ;;;
   may_raise (client_secrets w) ;;;
   call RunLocalServer ;;;
   returns (local_server w))%service.

(** The body of [if not creds or not creds.valid], entered with no
    credentials or with invalid ones: refresh or run the flow, then save. *)
Definition renew (w : answers) (creds : option credentials) : S credentials :=
  (creds <- match creds with
            | Some c =>
                if expired c && truthy (refresh_token c)
                then call (Refresh c) ;;; returns (refresh w c)
                else run_flow w
            | None => run_flow w
            end ;;
   dump_token w creds ;;;
   ret creds)%service.

(** [create_service()]; the service it returns is identified with the
    credentials it was built from. *)
Definition create_service (w : answers) : S credentials :=
  (present <- exists_token ;;
   creds <- (if present : bool
             then (c <- load_token ;; ret (Some c))
             else ret None) ;;
   creds <- match creds with
            | Some c => if valid c then ret c else renew w (Some c)
            | None => renew w None
            end ;;
   call (Build "calendar" "v3" creds) ;;;
   may_raise (build w) ;;;
   ret creds)%service.


Definition is_interactive (a : action) : bool :=
  match a with
  | FromClientSecrets _ _ => true
  | RunLocalServer => true
  | _ => false
  end.

End Service.

(** * Vocabulary of the statements *)

(** The window of the specification: [s <= h <= e] for a window inside one
    day, [h >= s] or [h <= e] for one that wraps past midnight. *)
Definition in_window (h s e : Z) : Prop :=
  (s <= e /\ s <= h <= e) \/ (e < s /\ (s <= h \/ h <= e)).

Definition is_fetch (e : effect) : bool :=
  match e with
  | EventsList _ _ _ _ _ => true
  | _ => false
  end.

Definition is_popen (e : effect) : bool :=
  match e with
  | Popen _ => true
  | _ => false
  end.

(** The same cycle with another reply from the Calendar API. *)
Definition with_reply (c : cycle) (reply : exn + option (list event)) : cycle :=
  mk_cycle (service c) (utcnow_isoformat c) (clock c) reply (clock_after c)
           (launch c).

(** The per-event work of the loop [for event in events], as a value: an
    exception, no alert, or the alert appended. *)
Definition event_step (fromisoformat : string -> exn + Datetime.datetime)
           (cfg : config) (now_datetime : Datetime.datetime) (ev : event)
  : exn + option Alert :=
  match ev_start ev with
  | None => inl (Exception "KeyError" "'start'")
  | Some st =>
      match ev_summary ev with
      | None => inl (Exception "KeyError" "'summary'")
      | Some title =>
          match (match st_dateTime st with
                 | Some s => Some s
                 | None => st_date st
                 end) with
          | None => inl (Exception "TypeError"
                           "fromisoformat: argument must be str")
          | Some start =>
              match fromisoformat start with
              | inl ex => inl ex
              | inr start_datetime =>
                  match mins_left start_datetime now_datetime with
                  | inl ex => inl ex
                  | inr m =>
                      inr (if Py.contains m (MINUTES_LEFT cfg)
                           then Some (mk_Alert title start m)
                           else None)
                  end
              end
          end
      end
  end.

(** What every alert of the scan is: built from one of the events, with
    the minutes left computed for that event, which are in [MINUTES_LEFT]. *)
Definition from_events (fromisoformat : string -> exn + Datetime.datetime)
           (cfg : config) (now : Datetime.datetime) (events : list event)
           (a : Alert) : Prop :=
  exists ev start_datetime,
    In ev events
    /\ ev_summary ev = Some (summary a)
    /\ fromisoformat (date a) = inr start_datetime
    /\ mins_left start_datetime now = inr (minutes_left a)
    /\ Py.contains (minutes_left a) (MINUTES_LEFT cfg) = true.

(** The claim that the loop outlives a failed fetch: run on the cycle [c]
    and then [next], the daemon performs the effects of [next] and ends as
    it does when started on [next] alone. *)
Definition loop_continues_after
           (fromisoformat : string -> exn + Datetime.datetime) (cfg : config)
           (c next : cycle) : Prop :=
  exists t1 t2,
    fst (create_daemon fromisoformat cfg ForkChild [c; next])
    = (t1 ++ trace (monitor_events fromisoformat cfg next) ++ t2)%list
    /\ snd (create_daemon fromisoformat cfg ForkChild [c; next])
       = snd (create_daemon fromisoformat cfg ForkChild [next]).

(** ** Vocabulary of the further properties *)

Definition is_sleep (e : effect) : bool :=
  match e with
  | Sleep _ => true
  | _ => false
  end.

Definition is_create_service (e : effect) : bool :=
  match e with
  | CreateService => true
  | _ => false
  end.

Definition is_log (e : effect) : bool :=
  match e with
  | LogRecord _ _ => true
  | _ => false
  end.

Definition is_fork (e : effect) : bool :=
  match e with
  | Fork => true
  | _ => false
  end.

Definition is_setsid (e : effect) : bool :=
  match e with
  | Setsid => true
  | _ => false
  end.

(** The cycles of a script that return. *)
Definition all_return (fromisoformat : string -> exn + Datetime.datetime)
           (cfg : config) (world : list cycle) : Prop :=
  Forall (fun c => result (monitor_events fromisoformat cfg c) = inr tt) world.

(** How many effects of a kind a trace holds. *)
Definition count (kind : effect -> bool) (t : list effect) : nat :=
  List.length (filter kind t).

(** An event the scan reads without raising. *)
Definition readable (fromisoformat : string -> exn + Datetime.datetime)
           (cfg : config) (now : Datetime.datetime) (ev : event) : Prop :=
  exists r, event_step fromisoformat cfg now ev = inr r.

(** The alerts of the events that match, in the order of the events. *)
Definition matched (fromisoformat : string -> exn + Datetime.datetime)
           (cfg : config) (now : Datetime.datetime) (events : list event)
  : list Alert :=
  flat_map (fun ev =>
              match event_step fromisoformat cfg now ev with
              | inr (Some a) => [a]
              | _ => []
              end) events.

(** The start text of an event: ['dateTime'] when present, else ['date']. *)
Definition start_text (st : event_start) : option string :=
  match st_dateTime st with
  | Some s => Some s
  | None => st_date st
  end.

(** The same wall-clock reading with another [tzinfo]. *)
Definition with_tzinfo (dt : Datetime.datetime) (tz : option Z)
  : Datetime.datetime :=
  Datetime.mk_datetime (Datetime.year dt) (Datetime.month dt)
    (Datetime.day dt) (Datetime.hour dt) (Datetime.minute dt)
    (Datetime.second dt) (Datetime.microsecond dt) tz.

(** How [create_daemon] ends when an exception leaves the loop. *)
Definition outcome_of_exn (ex : exn) : outcome :=
  match ex with
  | SystemExit _ => Returned 0
  | Exception _ _ => Returned 1
  | BaseException cls msg => Raised (BaseException cls msg)
  end.

(** The record [create_daemon] logs for it: one for an [Exception], none
    otherwise, the other calls being below the level of the logger. *)
Definition records_of_exn (ex : exn) : list effect :=
  match ex with
  | Exception _ msg =>
      [LogRecord Logging.ERROR ("Unexpected exception: " ++ msg)]
  | _ => []
  end.

(** The effects of a cycle that returns, followed by its sleep. *)
Definition cycle_and_sleep
           (fromisoformat : string -> exn + Datetime.datetime) (cfg : config)
           (c : cycle) : list effect :=
  (trace (monitor_events fromisoformat cfg c)
     ++ [Sleep (wait_time (Datetime.now (clock_after c)))])%list.

(** The same cycle with other answers to [subprocess.Popen]. *)
Definition with_launch (c : cycle) (l : list string -> option exn) : cycle :=
  mk_cycle (service c) (utcnow_isoformat c) (clock c) (events_result c)
           (clock_after c) l.

(** The command line of the [notify-send] of a reminder: the title and
    body for one alert, or for several. *)
Definition notify_argv (cfg : config) (alerts : list Alert) : list string :=
  match alerts with
  | [alert] =>
      ["notify-send"; "-t"; NOTIFY_TIME_MS cfg;
       "Upcoming event: " ++ Py.slice_to 50 (summary alert);
       Alert_str alert]
  | _ =>
      ["notify-send"; "-t"; NOTIFY_TIME_MS cfg;
       "Upcoming events: " ++ Py.str_of_int (Z.of_nat (List.length alerts));
       Py.join Py.newline (map Alert_str alerts)]
  end.

(** What a call of [subprocess.Popen] comes back with. *)
Definition launched (r : option exn) : exn + unit :=
  match r with
  | None => inr tt
  | Some ex => inl ex
  end.

(** The number of lines of a text: one more than its line feeds. *)
Definition line_count (s : string) : nat := S (Py.count_char "010" s).

(** [int(s)] on the decimal digits of a non-negative number. *)
Definition int_of_digits (s : string) : option Z :=
  match s with
  | EmptyString => None
  | _ => Datetime.digits s 0
  end.

(** The same cycle with another outcome of [create_service]. *)
Definition with_service (c : cycle) (svc : option exn) : cycle :=
  mk_cycle svc (utcnow_isoformat c) (clock c) (events_result c)
           (clock_after c) (launch c).

(** ** Sample data *)

Module Sample.

(** A naive [datetime]. *)
Definition at_ (y m d h mi s : Z) : Datetime.datetime :=
  Datetime.mk_datetime y m d h mi s 0 None.

(** Every command can be started. *)
Definition installed : list string -> option exn := fun _ => None.

(** [notify-send] is not installed; any other command can be started. *)
Definition no_notify_send : list string -> option exn :=
  fun argv =>
    match argv with
    | cmd :: _ =>
        if String.eqb cmd "notify-send"
        then Some (Exception "FileNotFoundError"
                     "[Errno 2] No such file or directory: 'notify-send'")
        else None
    | [] => None
    end.

(** A timed event and an all-day event, as the Calendar API returns them. *)
Definition timed (start title : string) : event :=
  mk_event (Some (mk_event_start (Some start) None)) (Some title).

Definition all_day (start title : string) : event :=
  mk_event (Some (mk_event_start None (Some start))) (Some title).

(** A cycle on 4 November 2026 at 10:00:00 local time (13:00:00 UTC), the
    service created, with the given reply; the clock reads second 1 when
    [monitor_events] is back. *)
Definition at_ten (reply : exn + option (list event)) : cycle :=
  mk_cycle None "2026-11-04T13:00:00.000250" (at_ 2026 11 4 10 0 0)
           reply (at_ 2026 11 4 10 0 1) installed.

(** The same reply at 21:00:00, inside the sleep hours as shipped. *)
Definition at_night (reply : exn + option (list event)) : cycle :=
  mk_cycle None "2026-11-05T00:00:00.000250" (at_ 2026 11 4 21 0 0)
           reply (at_ 2026 11 4 21 0 1) installed.

(** A meeting five minutes away. *)
Definition standup : event := timed "2026-11-04T10:05:00-03:00" "Standup".

(** The Calendar API is unreachable. *)
Definition fetch_fails : cycle :=
  at_ten (inl (Exception "HttpError" "503 Service Unavailable")).

(** The next minute the API answers, with a meeting five minutes away. *)
Definition fetch_works : cycle :=
  mk_cycle None "2026-11-04T13:01:00.000250" (at_ 2026 11 4 10 1 0)
           (inr (Some [timed "2026-11-04T10:06:00-03:00" "Standup"]))
           (at_ 2026 11 4 10 1 1) installed.

(** An appointment tomorrow at 10:01:00: one day and one minute away. *)
Definition tomorrow : event := timed "2026-11-05T10:01:00-03:00" "Dentist".

(** A two-day conference that began yesterday at 10:01:00 and is still
    going on, so the API lists it: 23 hours 59 minutes in the past. *)
Definition ongoing : event := timed "2026-11-03T10:01:00-03:00" "Conference".

(** An event whose title was set, through the API, to two lines. *)
Definition two_lines : event :=
  timed "2026-11-04T10:01:00-03:00" ("Budget" ++ Py.newline ++ "review").

(** An event entered without a title: the API sends no ['summary']. *)
Definition untitled : event :=
  mk_event (Some (mk_event_start (Some "2026-11-04T18:00:00-03:00") None))
           None.

(** Credentials still good, credentials that ran out and can be
    refreshed, and ones that ran out with no refresh token. *)
Definition good : Service.credentials :=
  Service.mk_credentials true false (Some "1//refresh") "ya29.new".

Definition stale : Service.credentials :=
  Service.mk_credentials false true (Some "1//refresh") "ya29.old".

Definition dead : Service.credentials :=
  Service.mk_credentials false true None "ya29.old".

(** What [pickle.load] makes of an emptied file. *)
Definition ran_out : exn := Exception "EOFError" "Ran out of input".

(** Every outside call succeeds and yields [good]. *)
Definition all_well : Service.answers :=
  Service.mk_answers (fun _ => inr good) None (inr good) None None ran_out
                     None.


(** The refresh is refused. *)
Definition refresh_refused : Service.answers :=
  Service.mk_answers
    (fun _ => inl (Exception "RefreshError" "invalid_grant"))
    None (inr good) None None ran_out None.

End Sample.

(** * Verification *)

(** ** The monad *)

Lemma trace_bind {A B : Type} (m : M A) (k : A -> M B) (a : A) :
  result m = inr a ->
  trace (bind m k) = (trace m ++ trace (k a))%list
  /\ result (bind m k) = result (k a).
Proof.
  destruct m as [t [ex | a']]; unfold result, trace, bind; simpl.
  - discriminate.
  - intros [= ->]. destruct (k a) as [t' r]. simpl. auto.
Qed.

Lemma bind_raises {A B : Type} (m : M A) (k : A -> M B) (ex : exn) :
  result m = inl ex ->
  bind m k = (trace m, inl ex).
Proof.
  destruct m as [t [ex' | a]]; unfold result, trace, bind; simpl.
  - intros [= ->]. reflexivity.
  - discriminate.
Qed.

Lemma bind_ret {A B : Type} (a : A) (k : A -> M B) : bind (ret a) k = k a.
Proof. unfold bind, ret. destruct (k a). reflexivity. Qed.

(** The logger is set to [ERROR]: the [debug], [info] and [warn] calls of
    the program leave no record. *)
Lemma debug_silent (msg : string) : Logging.debug msg = ret tt.
Proof. reflexivity. Qed.

Lemma error_recorded (msg : string) :
  Logging.records Logging.ERROR msg = [LogRecord Logging.ERROR msg].
Proof. reflexivity. Qed.

(** ** Sleep hours *)

Lemma skip_flag_spec (h s e : Z) :
  (if (e <? s) && ((s <=? h) || (h <=? e)) then true
   else if (s <=? h) && (h <=? e) then true else false) = true
  <-> in_window h s e.
Proof.
  unfold in_window.
  destruct (Z.ltb_spec e s), (Z.leb_spec s h), (Z.leb_spec h e); simpl;
    split; intros; try discriminate; try reflexivity; lia.
Qed.

Lemma sleep_hours_skip_spec (h : Z) (hours : list (Z * Z)) :
  sleep_hours_skip h hours = true
  <-> exists s e, In (s, e) hours /\ in_window h s e.
Proof.
  induction hours as [| [s e] rest IH].
  - simpl. split; [discriminate | intros (s & e & [] & _)].
  - cbn [sleep_hours_skip].
    pose proof (skip_flag_spec h s e) as Hflag.
    destruct (if (e <? s) && ((s <=? h) || (h <=? e)) then true
              else if (s <=? h) && (h <=? e) then true else false).
    + split; [intros _ | reflexivity].
      exists s, e. split; [left; reflexivity | apply Hflag; reflexivity].
    + rewrite IH. split.
      * intros (s' & e' & Hin & Hw). exists s', e'. split; [right |]; assumption.
      * intros (s' & e' & [Heq | Hin] & Hw).
        -- injection Heq as <- <-. apply Hflag in Hw. discriminate.
        -- exists s', e'. split; assumption.
Qed.

(** C4.  The sleep-hours test of [monitor_events] is true exactly when some
    configured window [(s, e)] matches the hour [h]: [s <= h <= e] when
    [s <= e], and [h >= s] or [h <= e] when the window wraps ([e < s]).
    Hence it is false when no window is configured, and a window with
    [s = e] matches during that one hour only.  This holds at every integer
    [h], in particular at the hours 0 to 23. *)
Theorem C4_sleep_hours_any_window :
  (forall h hours,
      sleep_hours_skip h hours = true
      <-> exists s e, In (s, e) hours /\
                      ((s <= e /\ s <= h <= e) \/ (e < s /\ (s <= h \/ h <= e))))
  /\ (forall h, sleep_hours_skip h [] = false)
  /\ (forall h s, sleep_hours_skip h [(s, s)] = true <-> h = s).
Proof.
  split; [| split].
  - intros h hours. apply sleep_hours_skip_spec.
  - reflexivity.
  - intros h s. rewrite sleep_hours_skip_spec. unfold in_window. split.
    + intros (s' & e' & [Heq | []] & Hw). injection Heq as <- <-. lia.
    + intros ->. exists s, s. split; [left; reflexivity | lia].
Qed.

(** ** The scan of the events *)

Section Scan.

Variable fromisoformat : string -> exn + Datetime.datetime.
Variable cfg : config.

Lemma collect_alerts_nil (now : Datetime.datetime) (alerts : list Alert) :
  collect_alerts fromisoformat cfg now [] alerts = ([], inr alerts).
Proof. reflexivity. Qed.

(** One turn of the loop is [event_step]. *)
Lemma collect_alerts_cons (now : Datetime.datetime) (ev : event)
      (rest : list event) (alerts : list Alert) :
  collect_alerts fromisoformat cfg now (ev :: rest) alerts
  = match event_step fromisoformat cfg now ev with
    | inl ex => ([], inl ex)
    | inr None => collect_alerts fromisoformat cfg now rest alerts
    | inr (Some a) =>
        collect_alerts fromisoformat cfg now rest (alerts ++ [a])%list
    end.
Proof.
  cbn [collect_alerts]. unfold event_step, event_start_get.
  destruct (ev_start ev) as [st |]; [| reflexivity].
  destruct (ev_summary ev) as [title |]; [| reflexivity].
  destruct (match st_dateTime st with Some s => Some s | None => st_date st end)
    as [start |] eqn:Hstart; cbn -[collect_alerts]; rewrite Hstart;
    [| reflexivity].
  cbn -[collect_alerts].
  destruct (fromisoformat start) as [ex | sd]; [reflexivity |].
  cbn -[collect_alerts].
  destruct (mins_left sd now) as [ex | m]; [reflexivity |].
  cbn -[collect_alerts].
  destruct (Py.contains m (MINUTES_LEFT cfg)); cbn -[collect_alerts];
    destruct (collect_alerts _ _ _ _ _) as [t r]; reflexivity.
Qed.

(** The scan performs no effect: the log calls in it are below the level
    of the logger. *)
Lemma collect_alerts_silent (now : Datetime.datetime) (events : list event)
      (alerts : list Alert) :
  trace (collect_alerts fromisoformat cfg now events alerts) = [].
Proof.
  revert alerts. induction events as [| ev rest IH]; intros alerts.
  - reflexivity.
  - rewrite collect_alerts_cons.
    destruct (event_step fromisoformat cfg now ev) as [ex | [a |]];
      [reflexivity | apply IH | apply IH].
Qed.

Lemma event_step_alert (now : Datetime.datetime) (ev : event) (a : Alert) :
  event_step fromisoformat cfg now ev = inr (Some a) ->
  from_events fromisoformat cfg now [ev] a.
Proof.
  unfold event_step, from_events. intros H.
  destruct (ev_start ev) as [st |]; [| discriminate].
  destruct (ev_summary ev) as [title |] eqn:Htitle; [| discriminate].
  destruct (match st_dateTime st with Some s => Some s | None => st_date st end)
    as [start |]; [| discriminate].
  destruct (fromisoformat start) as [ex | sd] eqn:Hsd; [discriminate |].
  destruct (mins_left sd now) as [ex | m] eqn:Hm; [discriminate |].
  destruct (Py.contains m (MINUTES_LEFT cfg)) eqn:Hin; [| discriminate].
  injection H as <-. exists ev, sd. simpl. auto.
Qed.

Lemma from_events_weaken (now : Datetime.datetime) (evs evs' : list event)
      (a : Alert) :
  incl evs evs' -> from_events fromisoformat cfg now evs a -> from_events fromisoformat cfg now evs' a.
Proof.
  intros Hincl (ev & sd & Hin & H). exists ev, sd. split; [auto | exact H].
Qed.

Lemma collect_alerts_from_events (now : Datetime.datetime)
      (events : list event) (alerts0 alerts : list Alert) :
  result (collect_alerts fromisoformat cfg now events alerts0) = inr alerts ->
  exists new,
    alerts = (alerts0 ++ new)%list /\ Forall (from_events fromisoformat cfg now events) new.
Proof.
  revert alerts0. induction events as [| ev rest IH]; intros alerts0.
  - cbn. intros [= <-]. exists []. rewrite app_nil_r. auto.
  - rewrite collect_alerts_cons.
    destruct (event_step fromisoformat cfg now ev) as [ex | [a |]] eqn:Hstep.
    + discriminate.
    + intros H. apply IH in H as (new & -> & Hnew).
      exists (a :: new). rewrite <- app_assoc. split; [reflexivity |].
      constructor.
      * apply from_events_weaken with (evs := [ev]);
          [intros x [<- | []]; left; reflexivity |].
        apply event_step_alert. exact Hstep.
      * eapply Forall_impl; [| exact Hnew].
        intros b. apply from_events_weaken. apply incl_tl, incl_refl.
    + intros H. apply IH in H as (new & -> & Hnew).
      exists new. split; [reflexivity |].
      eapply Forall_impl; [| exact Hnew].
      intros b. apply from_events_weaken. apply incl_tl, incl_refl.
Qed.

End Scan.

(** ** One pass of [monitor_events] *)

Section Cycle.

Variable fromisoformat : string -> exn + Datetime.datetime.
Variable cfg : config.

Lemma monitor_events_sleep_hour (c : cycle) :
  sleep_hours_skip (Datetime.hour (Datetime.now (clock c))) (SLEEP_HOURS cfg)
    = true ->
  monitor_events fromisoformat cfg c
  = ([CreateService],
     match service c with
     | None => inr tt
     | Some ex => inl ex
     end).
Proof.
  intros Hskip. unfold monitor_events, create_service.
  rewrite Hskip. destruct (service c); reflexivity.
Qed.

(** Outside the sleep hours, with the service created: the fetch, the scan
    of the events, and the reminder when some alert was collected. *)
Lemma monitor_events_awake (c : cycle) :
  service c = None ->
  sleep_hours_skip (Datetime.hour (Datetime.now (clock c))) (SLEEP_HOURS cfg)
    = false ->
  monitor_events fromisoformat cfg c
  = (perform CreateService ;;;
     reply <- events_list_execute c (utcnow_isoformat c ++ "Z") ;;
     alerts <- collect_alerts fromisoformat cfg (Datetime.now (clock c))
                 (match reply with Some items => items | None => [] end) [] ;;
     match alerts with
     | [] => ret tt
     | _ => display_reminder cfg (launch c) alerts
     end).
Proof.
  intros Hsvc Hskip. unfold monitor_events, create_service, events_list_execute.
  rewrite Hsvc, Hskip.
  destruct (events_result c) as [ex | [[| ev items] |]]; try reflexivity.
  cbn -[collect_alerts display_reminder Datetime.now append].
  destruct (collect_alerts _ _ _ _ _) as [t [ex | [| a alerts]]];
    try reflexivity.
  cbn -[display_reminder append].
  destruct (display_reminder cfg (launch c) (a :: alerts)) as [t2 r2].
  reflexivity.
Qed.

(** What an awake cycle does once the events are scanned: nothing more
    when no alert was collected, the reminder otherwise. *)
Lemma monitor_events_scanned (c : cycle) (reply : option (list event))
      (alerts : list Alert) :
  service c = None ->
  sleep_hours_skip (Datetime.hour (Datetime.now (clock c))) (SLEEP_HOURS cfg)
    = false ->
  events_result c = inr reply ->
  result (collect_alerts fromisoformat cfg (Datetime.now (clock c))
            (match reply with Some items => items | None => [] end) [])
  = inr alerts ->
  monitor_events fromisoformat cfg c
  = ((CreateService
        :: EventsList "primary" (utcnow_isoformat c ++ "Z") 10 true "startTime"
        :: match alerts with
           | [] => []
           | _ => trace (display_reminder cfg (launch c) alerts)
           end)%list,
     match alerts with
     | [] => inr tt
     | _ => result (display_reminder cfg (launch c) alerts)
     end).
Proof.
  intros Hsvc Hskip Hreply Hscan.
  rewrite (monitor_events_awake c Hsvc Hskip).
  unfold events_list_execute. rewrite Hreply.
  cbn -[collect_alerts display_reminder Datetime.now append].
  pose proof (collect_alerts_silent fromisoformat cfg (Datetime.now (clock c))
                (match reply with Some items => items | None => [] end) [])
    as Hsilent.
  destruct (collect_alerts _ _ _ _ _) as [t r].
  cbn [trace fst result snd] in Hsilent, Hscan. subst t r.
  destruct alerts as [| a rest]; [reflexivity |].
  cbn -[display_reminder append].
  destruct (display_reminder cfg (launch c) (a :: rest)) as [t2 r2].
  reflexivity.
Qed.

Lemma daemon_loop_cycle_returns (c : cycle) (rest : list cycle) :
  result (monitor_events fromisoformat cfg c) = inr tt ->
  daemon_loop fromisoformat cfg (c :: rest)
  = ((trace (monitor_events fromisoformat cfg c)
        ++ Sleep (wait_time (Datetime.now (clock_after c)))
        :: trace (daemon_loop fromisoformat cfg rest))%list,
     result (daemon_loop fromisoformat cfg rest)).
Proof.
  cbn [daemon_loop].
  destruct (monitor_events fromisoformat cfg c) as [t [ex | []]];
    unfold result, trace; simpl; [discriminate | intros _].
  destruct (daemon_loop fromisoformat cfg rest) as [t' r]. reflexivity.
Qed.

Lemma daemon_loop_cycle_raises (c : cycle) (rest : list cycle) (ex : exn) :
  result (monitor_events fromisoformat cfg c) = inl ex ->
  daemon_loop fromisoformat cfg (c :: rest)
  = (trace (monitor_events fromisoformat cfg c), inl ex).
Proof.
  cbn [daemon_loop].
  destruct (monitor_events fromisoformat cfg c) as [t [ex' | []]];
    unfold result, trace; simpl; [intros [= ->]; reflexivity | discriminate].
Qed.

End Cycle.

(** ** Strings *)

Lemma slice_to_length (n : nat) (s : string) :
  String.length (Py.slice_to n s) = Nat.min n (String.length s).
Proof.
  unfold Py.slice_to. revert n.
  induction s as [| c s IH]; intros [| n]; simpl; try reflexivity.
  rewrite IH. reflexivity.
Qed.

Lemma slice_to_prefix (n : nat) (s : string) :
  prefix (Py.slice_to n s) s = true.
Proof.
  unfold Py.slice_to. revert n.
  induction s as [| c s IH]; intros [| n]; simpl; try reflexivity.
  destruct (ascii_dec c c) as [_ | Hne]; [apply IH | contradiction].
Qed.

Lemma count_char_append (c : ascii) (s1 s2 : string) :
  Py.count_char c (s1 ++ s2)
  = (Py.count_char c s1 + Py.count_char c s2)%nat.
Proof.
  induction s1 as [| a s1 IH]; simpl; [reflexivity |].
  rewrite IH. lia.
Qed.

(** Joining [n >= 1] parts inserts [n - 1] separators and nothing else. *)
Lemma count_newlines_join (p : string) (parts : list string) :
  Py.count_char "010" (Py.join Py.newline (p :: parts))
  = (List.length parts
     + list_sum (map (Py.count_char "010") (p :: parts)))%nat.
Proof.
  unfold Py.join. revert p.
  induction parts as [| q parts IH]; intros p.
  - simpl. lia.
  - change (String.concat Py.newline (p :: q :: parts))
      with (p ++ Py.newline ++ String.concat Py.newline (q :: parts)).
    rewrite !count_char_append, IH. simpl. lia.
Qed.

(** ** Numbers in decimal *)

Lemma digits_of_uint_acc (d : Decimal.uint) (p : positive) :
  Datetime.digits (NilEmpty.string_of_uint d) (Z.pos p)
  = Some (Z.pos (Pos.of_uint_acc d p)).
Proof.
  revert p.
  induction d as [| d IH | d IH | d IH | d IH | d IH | d IH | d IH | d IH
                  | d IH | d IH]; intros p;
    [reflexivity | ..];
    cbn [NilEmpty.string_of_uint Datetime.digits Pos.of_uint_acc];
    unfold Datetime.digit; cbn [nat_of_ascii]; simpl Z.of_nat;
    cbn [Z.leb Z.compare Pos.compare Pos.compare_cont andb Z.sub Z.add
         Z.opp Z.pos_sub Pos.pred_double Z.double Z.succ_double
         Z.pred_double];
    match goal with
    | |- Datetime.digits _ ?acc = Some (Z.pos (Pos.of_uint_acc _ ?q)) =>
        replace acc with (Z.pos q) by lia
    end;
    apply IH.
Qed.

Lemma digits_of_uint (d : Decimal.uint) :
  Datetime.digits (NilEmpty.string_of_uint d) 0
  = Some (Z.of_N (Pos.of_uint d)).
Proof.
  induction d as [| d IH | d IH | d IH | d IH | d IH | d IH | d IH | d IH
                  | d IH | d IH];
    [reflexivity | exact IH | ..];
    cbn [NilEmpty.string_of_uint Datetime.digits Pos.of_uint];
    unfold Datetime.digit; cbn [nat_of_ascii]; simpl Z.of_nat;
    cbn [Z.leb Z.compare Pos.compare Pos.compare_cont andb Z.sub Z.add
         Z.opp Z.pos_sub Pos.pred_double Z.double Z.succ_double
         Z.pred_double Z.mul Z.of_N];
    apply digits_of_uint_acc.
Qed.

Lemma str_of_int_pos (p : positive) :
  Py.str_of_int (Z.pos p) = NilEmpty.string_of_uint (Pos.to_uint p)
  /\ Py.str_of_int (Z.pos p) <> "".
Proof.
  unfold Py.str_of_int. cbn [Z.to_int NilZero.string_of_int].
  pose proof (DecimalPos.Unsigned.to_uint_nonnil p) as Hnil.
  destruct (Pos.to_uint p); [contradiction | ..]; split;
    (reflexivity || discriminate).
Qed.

(** The text printed for a number is its decimal writing: it is not
    empty and its digits read back as the number; a negative number is
    the minus sign followed by the text of its absolute value. *)
Lemma str_of_int_decimal (n : Z) :
  0 <= n -> int_of_digits (Py.str_of_int n) = Some n.
Proof.
  intros Hn. destruct n as [| p | p]; [reflexivity | | lia].
  destruct (str_of_int_pos p) as [Heq Hne].
  unfold int_of_digits.
  destruct (Py.str_of_int (Z.pos p)) eqn:Hs; [contradiction |].
  rewrite Heq, digits_of_uint, DecimalPos.Unsigned.of_to. reflexivity.
Qed.

Lemma str_of_int_negative (n : Z) :
  0 < n -> Py.str_of_int (- n) = String "-" (Py.str_of_int n).
Proof.
  intros Hn. destruct n as [| p | p]; [lia | reflexivity | lia].
Qed.

Lemma nzhead_not_D0 (d d' : Decimal.uint) :
  Decimal.nzhead d <> Decimal.D0 d'.
Proof.
  induction d; cbn [Decimal.nzhead]; try discriminate. exact IHd.
Qed.

(** No zero in front: the text of a positive number begins with a digit
    other than 0. *)
Lemma str_of_int_no_leading_zero (n : Z) :
  0 < n ->
  exists c rest, Py.str_of_int n = String c rest /\ c <> "0"%char.
Proof.
  intros Hn. destruct n as [| p | p]; [lia | | lia].
  destruct (str_of_int_pos p) as [-> _].
  pose proof (DecimalPos.Unsigned.to_of (Pos.to_uint p)) as Hnorm.
  rewrite DecimalPos.Unsigned.of_to in Hnorm.
  change (N.to_uint (N.pos p)) with (Pos.to_uint p) in Hnorm.
  pose proof (DecimalPos.Unsigned.to_uint_nonzero p) as Hnz.
  destruct (Pos.to_uint p) as [| l | l | l | l | l | l | l | l | l | l] eqn:Hu;
    try (eexists _, _; split; [reflexivity | discriminate]).
  - exfalso. unfold Decimal.unorm in Hnorm. cbn [Decimal.nzhead] in Hnorm.
    discriminate Hnorm.
  - exfalso. unfold Decimal.unorm in Hnorm. cbn [Decimal.nzhead] in Hnorm.
    destruct (Decimal.nzhead l) eqn:Hl;
      try (symmetry in Hnorm; revert Hnorm; rewrite <- Hl;
           apply nzhead_not_D0).
    apply Hnz. rewrite Hnorm. reflexivity.
Qed.

Lemma digits_no_line_feed (s : string) (acc v : Z) :
  Datetime.digits s acc = Some v -> Py.count_char "010" s = 0%nat.
Proof.
  revert acc. induction s as [| c s IH]; intros acc H; [reflexivity |].
  cbn [Datetime.digits] in H. cbn [Py.count_char].
  destruct (Datetime.digit c) as [d |] eqn:Hd; [| discriminate H].
  rewrite (IH _ H).
  destruct (Ascii.eqb_spec c "010") as [-> | _]; [discriminate Hd |].
  reflexivity.
Qed.

Lemma str_of_int_one_line (n : Z) : Py.count_char "010" (Py.str_of_int n) = 0%nat.
Proof.
  assert (Hpos : forall m, 0 <= m ->
                           Py.count_char "010" (Py.str_of_int m) = 0%nat).
  { intros m Hm. pose proof (str_of_int_decimal m Hm) as H.
    unfold int_of_digits in H.
    destruct (Py.str_of_int m); [reflexivity |].
    exact (digits_no_line_feed _ _ _ H). }
  destruct (Z.le_gt_cases 0 n) as [Hn | Hn]; [apply Hpos; exact Hn |].
  replace n with (- (- n)) by lia.
  rewrite str_of_int_negative by lia.
  cbn [Py.count_char]. rewrite Hpos by lia. reflexivity.
Qed.

(** An alert whose title and start text hold no line feed prints on one
    line. *)
Lemma Alert_str_one_line (a : Alert) :
  Py.count_char "010" (summary a) = 0%nat ->
  Py.count_char "010" (date a) = 0%nat ->
  Py.count_char "010" (Alert_str a) = 0%nat.
Proof.
  intros Hsum Hdate. unfold Alert_str.
  rewrite !count_char_append, str_of_int_one_line, Hsum, Hdate.
  reflexivity.
Qed.

Lemma list_sum_zero (f : Alert -> nat) (alerts : list Alert) :
  Forall (fun a => f a = 0%nat) alerts ->
  list_sum (map f alerts) = 0%nat.
Proof.
  induction 1 as [| a alerts Ha _ IH]; [reflexivity |].
  cbn [map].
  change (list_sum (f a :: map f alerts))
    with (f a + list_sum (map f alerts))%nat.
  rewrite Ha, IH. reflexivity.
Qed.

(** ** The reminder *)

(** The reminder calls [notify-send]; if that call raises, the reminder
    raises and stops there; otherwise it calls the audio command, and
    raises if that one cannot be started. *)
Lemma display_reminder_calls (cfg : config)
      (launch : list string -> option exn) (a : Alert) (rest : list Alert) :
  display_reminder cfg launch (a :: rest)
  = match launch (notify_argv cfg (a :: rest)) with
    | Some ex => ([Popen (notify_argv cfg (a :: rest))], inl ex)
    | None =>
        ([Popen (notify_argv cfg (a :: rest)); Popen (AUDIO_PLAY_CMD cfg)],
         launched (launch (AUDIO_PLAY_CMD cfg)))
    end.
Proof.
  unfold display_reminder, popen, notify_argv.
  destruct rest as [| b rest];
    cbn -[append Py.slice_to Alert_str Py.str_of_int Py.join List.length];
    (destruct (launch _) as [ex |];
     cbn -[append Py.slice_to Alert_str Py.str_of_int Py.join List.length];
     [reflexivity |]);
    destruct (launch (AUDIO_PLAY_CMD cfg)); reflexivity.
Qed.

(** C6, as the program has it.  On a non-empty list of alerts the reminder
    calls [notify-send] exactly once.  With one alert its title is
    ["Upcoming event: "] followed by the first 50 characters of the event
    title (all of it when shorter) and its body is
    ["In {minutes_left} minutes [{date}] -> {summary}"], the number in
    decimal (its digits read back as the number, with no zero in front).  With two alerts or more its title is
    ["Upcoming events: {count}"] and its body is the per-alert strings, in
    the same format, joined by line feeds: [n] alerts give [n] pieces with
    [n - 1] line feeds between them, so [n] lines when no title and no
    start text holds a line feed (one inside a title adds a line).  When
    the [notify-send] call raises, the reminder raises and nothing is
    shown; otherwise the audio command is called next. *)
Theorem C6_reminder_texts_and_calls (cfg : config)
        (launch : list string -> option exn) :
  (forall a, Alert_str a
             = "In " ++ Py.str_of_int (minutes_left a) ++ " minutes ["
                     ++ date a ++ "] -> " ++ summary a)
  /\ (forall n, 0 <= n -> int_of_digits (Py.str_of_int n) = Some n)
  /\ (forall n, 0 < n ->
                exists c rest,
                  Py.str_of_int n = String c rest /\ c <> "0"%char)
  /\ (forall a,
         let argv := ["notify-send"; "-t"; NOTIFY_TIME_MS cfg;
                      "Upcoming event: " ++ Py.slice_to 50 (summary a);
                      Alert_str a] in
         display_reminder cfg launch [a]
         = match launch argv with
           | Some ex => ([Popen argv], inl ex)
           | None =>
               ([Popen argv; Popen (AUDIO_PLAY_CMD cfg)],
                launched (launch (AUDIO_PLAY_CMD cfg)))
           end
         /\ String.length (Py.slice_to 50 (summary a))
            = Nat.min 50 (String.length (summary a))
         /\ prefix (Py.slice_to 50 (summary a)) (summary a) = true)
  /\ (forall a b rest,
         let alerts := a :: b :: rest in
         let body := String.concat Py.newline (map Alert_str alerts) in
         let argv := ["notify-send"; "-t"; NOTIFY_TIME_MS cfg;
                      "Upcoming events: "
                        ++ Py.str_of_int (Z.of_nat (List.length alerts));
                      body] in
         display_reminder cfg launch alerts
         = match launch argv with
           | Some ex => ([Popen argv], inl ex)
           | None =>
               ([Popen argv; Popen (AUDIO_PLAY_CMD cfg)],
                launched (launch (AUDIO_PLAY_CMD cfg)))
           end
         /\ List.length (map Alert_str alerts) = List.length alerts
         /\ Py.count_char "010" body
            = (List.length alerts - 1
               + list_sum (map (Py.count_char "010")
                               (map Alert_str alerts)))%nat
         /\ (Forall (fun x => Py.count_char "010" (summary x) = 0%nat
                              /\ Py.count_char "010" (date x) = 0%nat)
                    alerts ->
             line_count body = List.length alerts)).
Proof.
  split; [reflexivity |].
  split; [exact str_of_int_decimal |].
  split; [exact str_of_int_no_leading_zero |].
  split.
  - intros a argv. split; [apply display_reminder_calls |].
    split; [apply slice_to_length | apply slice_to_prefix].
  - intros a b rest alerts body argv.
    split; [apply display_reminder_calls |].
    split; [apply length_map |].
    assert (Hcount : Py.count_char "010" body
                     = (List.length alerts - 1
                        + list_sum (map (Py.count_char "010")
                                        (map Alert_str alerts)))%nat).
    { subst body alerts. cbn [map].
      pose proof (count_newlines_join (Alert_str a)
                    (Alert_str b :: map Alert_str rest)) as H.
      unfold Py.join in H. rewrite H. cbn [List.length].
      rewrite length_map. cbn [map]. lia. }
    split; [exact Hcount |].
    intros Hlines. unfold line_count. rewrite Hcount, map_map.
    rewrite list_sum_zero.
    + subst alerts. cbn [List.length]. lia.
    + eapply Forall_impl; [| exact Hlines].
      intros x [Hs Hd]. apply Alert_str_one_line; assumption.
Qed.

(** C6 as claimed fails twice over.  Two alerts, one for an event whose
    title holds a line feed, give a body of three lines, not two.  And
    when [notify-send] cannot be started the one call raises: no
    notification is emitted. *)
Lemma C6_two_alerts_three_lines :
  (exists body,
      monitor_events Datetime.fromisoformat_basic settings
        (Sample.at_ten (inr (Some [Sample.two_lines; Sample.standup])))
      = ([CreateService;
          EventsList "primary" "2026-11-04T13:00:00.000250Z" 10 true
                     "startTime";
          Popen ["notify-send"; "-t"; "50000"; "Upcoming events: 2"; body];
          Popen ["play"; "5glasses.ogg"]],
         inr tt)
      /\ line_count body = 3%nat
      /\ line_count body <> 2%nat)
  /\ display_reminder settings Sample.no_notify_send
       [mk_Alert "Standup" "2026-11-04T10:05:00-03:00" 5]
     = ([Popen ["notify-send"; "-t"; "50000"; "Upcoming event: Standup";
                "In 5 minutes [2026-11-04T10:05:00-03:00] -> Standup"]],
        inl (Exception "FileNotFoundError"
               "[Errno 2] No such file or directory: 'notify-send'")).
Proof.
  split; [| reflexivity].
  eexists. split; [reflexivity |]. split; [reflexivity | discriminate].
Qed.

(** C7, as the program has it.  On a non-empty list of alerts, one or
    many, the reminder first calls [notify-send].  When that call returns,
    the audio command is called exactly once, and the reminder raises if
    it cannot be started.  When the [notify-send] call raises, the
    reminder raises and the audio command is not called at all. *)
Theorem C7_audio_called_once_after_notify_send (cfg : config)
        (launch : list string -> option exn) (a : Alert)
        (rest : list Alert) :
  (exists title body,
      notify_argv cfg (a :: rest)
      = ["notify-send"; "-t"; NOTIFY_TIME_MS cfg; title; body])
  /\ display_reminder cfg launch (a :: rest)
     = match launch (notify_argv cfg (a :: rest)) with
       | Some ex => ([Popen (notify_argv cfg (a :: rest))], inl ex)
       | None =>
           ([Popen (notify_argv cfg (a :: rest));
             Popen (AUDIO_PLAY_CMD cfg)],
            launched (launch (AUDIO_PLAY_CMD cfg)))
       end.
Proof.
  split; [| apply display_reminder_calls].
  destruct rest as [| b rest]; eexists _, _; reflexivity.
Qed.

(** C7 as claimed fails: where [notify-send] is not installed, a cycle
    with a due event calls [notify-send], which raises, and the audio
    command is never called. *)
Lemma C7_no_sound_without_notify_send :
  monitor_events Datetime.fromisoformat_basic settings
    (with_launch (Sample.at_ten (inr (Some [Sample.standup])))
                 Sample.no_notify_send)
  = ([CreateService;
      EventsList "primary" "2026-11-04T13:00:00.000250Z" 10 true "startTime";
      Popen ["notify-send"; "-t"; "50000"; "Upcoming event: Standup";
             "In 5 minutes [2026-11-04T10:05:00-03:00] -> Standup"]],
     inl (Exception "FileNotFoundError"
            "[Errno 2] No such file or directory: 'notify-send'"))
  /\ ~ In (Popen (AUDIO_PLAY_CMD settings))
          (trace (monitor_events Datetime.fromisoformat_basic settings
                    (with_launch (Sample.at_ten (inr (Some [Sample.standup])))
                                 Sample.no_notify_send))).
Proof.
  split; [reflexivity |].
  cbn. intros [H | [H | [H | []]]]; discriminate H.
Qed.

Lemma contains_In (x : Z) (xs : list Z) :
  Py.contains x xs = true <-> In x xs.
Proof.
  unfold Py.contains. rewrite existsb_exists. split.
  - intros (y & Hin & Heq). apply Z.eqb_eq in Heq. subst. exact Hin.
  - intros Hin. exists x. split; [exact Hin | apply Z.eqb_refl].
Qed.

(** C9.  Every [Alert] the scan of the events produces has its
    [minutes_left] in [MINUTES_LEFT]: it is the value computed for one of
    the events, found in the list when the alert was built.  The scan is
    the only place that builds an [Alert], and the statement holds for
    every list of events, so also for the events seen before one that makes
    the scan raise. *)
Theorem C9_alert_minutes_in_MINUTES_LEFT
        (fromisoformat : string -> exn + Datetime.datetime) (cfg : config)
        (now : Datetime.datetime) (events : list event) (alerts : list Alert) :
  result (collect_alerts fromisoformat cfg now events []) = inr alerts ->
  Forall (fun a => In (minutes_left a) (MINUTES_LEFT cfg)
                   /\ from_events fromisoformat cfg now events a) alerts.
Proof.
  intros H. apply collect_alerts_from_events in H as (new & -> & Hnew).
  cbn [app]. eapply Forall_impl; [| exact Hnew].
  intros a Ha. split; [| exact Ha].
  destruct Ha as (ev & sd & _ & _ & _ & _ & Hin).
  apply contains_In. exact Hin.
Qed.

Lemma C9_witness :
  result (collect_alerts Datetime.fromisoformat_basic settings
            (Sample.at_ 2026 11 4 10 0 0)
            [Sample.standup; Sample.all_day "2026-11-07" "Holiday"] [])
  = inr [mk_Alert "Standup" "2026-11-04T10:05:00-03:00" 5]
  /\ Forall (fun a => In (minutes_left a) (MINUTES_LEFT settings)
                      /\ from_events Datetime.fromisoformat_basic settings
                           (Sample.at_ 2026 11 4 10 0 0)
                           [Sample.standup;
                            Sample.all_day "2026-11-07" "Holiday"] a)
            [mk_Alert "Standup" "2026-11-04T10:05:00-03:00" 5].
Proof.
  split; [reflexivity |].
  apply (C9_alert_minutes_in_MINUTES_LEFT Datetime.fromisoformat_basic
           settings (Sample.at_ 2026 11 4 10 0 0)
           [Sample.standup; Sample.all_day "2026-11-07" "Holiday"]).
  reflexivity.
Defined.

(** ** Sleep hours in the cycle *)

(** C8.  In a cycle whose hour is inside a configured sleep window,
    [monitor_events] creates the service and does nothing else: no call of
    the Calendar API, no process launched (neither [notify-send] nor the
    audio command), and the outcome does not depend on what the API would
    have answered, so no event is looked at. *)
Theorem C8_nothing_done_in_sleep_hours
        (fromisoformat : string -> exn + Datetime.datetime) (cfg : config)
        (c : cycle) :
  sleep_hours_skip (Datetime.hour (Datetime.now (clock c))) (SLEEP_HOURS cfg)
    = true ->
  trace (monitor_events fromisoformat cfg c) = [CreateService]
  /\ existsb is_fetch (trace (monitor_events fromisoformat cfg c)) = false
  /\ existsb is_popen (trace (monitor_events fromisoformat cfg c)) = false
  /\ forall reply,
       monitor_events fromisoformat cfg (with_reply c reply)
       = monitor_events fromisoformat cfg c.
Proof.
  intros Hskip.
  rewrite (monitor_events_sleep_hour fromisoformat cfg c Hskip).
  repeat split.
  intros reply.
  apply (monitor_events_sleep_hour fromisoformat cfg (with_reply c reply)).
  exact Hskip.
Qed.

Lemma C8_witness :
  sleep_hours_skip 21 (SLEEP_HOURS settings) = true
  /\ trace (monitor_events Datetime.fromisoformat_basic settings
              (Sample.at_night (inr (Some [Sample.standup]))))
     = [CreateService].
Proof.
  split; [reflexivity |].
  refine (proj1 (C8_nothing_done_in_sleep_hours Datetime.fromisoformat_basic
                   settings (Sample.at_night (inr (Some [Sample.standup])))
                   _)).
  reflexivity.
Defined.

(** ** The loop of the daemon *)

(** C5.  When [monitor_events] has returned and the clock reads second [S],
    [0 <= S < 60], the loop sleeps [60 - S] seconds before the next cycle:
    between 1 and 60 seconds, and a full 60 at [S = 0]. *)
Theorem C5_sleep_until_next_minute
        (fromisoformat : string -> exn + Datetime.datetime) (cfg : config)
        (c : cycle) (rest : list cycle) (S : Z) :
  Datetime.second (Datetime.now (clock_after c)) = S ->
  0 <= S < 60 ->
  result (monitor_events fromisoformat cfg c) = inr tt ->
  trace (daemon_loop fromisoformat cfg (c :: rest))
  = (trace (monitor_events fromisoformat cfg c)
       ++ Sleep (60 - S) :: trace (daemon_loop fromisoformat cfg rest))%list
  /\ wait_time (Datetime.now (clock_after c)) = 60 - S
  /\ 1 <= 60 - S <= 60
  /\ (S = 0 -> wait_time (Datetime.now (clock_after c)) = 60).
Proof.
  intros HS Hrange Hret.
  rewrite (daemon_loop_cycle_returns fromisoformat cfg c rest Hret).
  unfold wait_time. rewrite HS. cbn [trace fst].
  repeat split; lia.
Qed.

Lemma C5_witness :
  trace (daemon_loop Datetime.fromisoformat_basic settings
           [mk_cycle None "2026-11-04T13:00:00" (Sample.at_ 2026 11 4 10 0 0)
                     (inr (Some [])) (Sample.at_ 2026 11 4 10 0 0)
                     Sample.installed])
  = [CreateService;
     EventsList "primary" "2026-11-04T13:00:00Z" 10 true "startTime";
     Sleep 60].
Proof.
  refine (proj1 (C5_sleep_until_next_minute Datetime.fromisoformat_basic
                   settings
                   (mk_cycle None "2026-11-04T13:00:00"
                             (Sample.at_ 2026 11 4 10 0 0)
                             (inr (Some [])) (Sample.at_ 2026 11 4 10 0 0)
                             Sample.installed)
                   [] 0 _ _ _)).
  - reflexivity.
  - lia.
  - reflexivity.
Defined.

Section Loop.

Variable fromisoformat : string -> exn + Datetime.datetime.
Variable cfg : config.

Lemma monitor_events_fetch_raises (c : cycle) (ex : exn) :
  service c = None ->
  sleep_hours_skip (Datetime.hour (Datetime.now (clock c))) (SLEEP_HOURS cfg)
    = false ->
  events_result c = inl ex ->
  monitor_events fromisoformat cfg c
  = ([CreateService;
      EventsList "primary" (utcnow_isoformat c ++ "Z") 10 true "startTime"],
     inl ex).
Proof.
  intros Hsvc Hskip Hfetch.
  rewrite (monitor_events_awake fromisoformat cfg c Hsvc Hskip).
  unfold events_list_execute. rewrite Hfetch. reflexivity.
Qed.

(** Cycles that all return are followed by the rest of the script. *)
Lemma daemon_loop_app (pre w : list cycle) :
  result (daemon_loop fromisoformat cfg pre) = inr tt ->
  daemon_loop fromisoformat cfg (pre ++ w)
  = ((trace (daemon_loop fromisoformat cfg pre)
        ++ trace (daemon_loop fromisoformat cfg w))%list,
     result (daemon_loop fromisoformat cfg w)).
Proof.
  induction pre as [| c pre IH]; intros Hpre.
  - cbn. destruct (daemon_loop fromisoformat cfg w). reflexivity.
  - destruct (result (monitor_events fromisoformat cfg c)) as [ex | []] eqn:Hc.
    + rewrite (daemon_loop_cycle_raises fromisoformat cfg c pre ex Hc) in Hpre.
      discriminate.
    + rewrite (daemon_loop_cycle_returns fromisoformat cfg c pre Hc) in *.
      cbn [result snd trace fst] in *.
      change ((c :: pre) ++ w)%list with (c :: (pre ++ w))%list.
      rewrite (daemon_loop_cycle_returns fromisoformat cfg c (pre ++ w) Hc).
      rewrite (IH Hpre). cbn [result snd trace fst].
      rewrite <- app_assoc. reflexivity.
Qed.

(** An exception of class [Exception] in the loop: one error record, and
    [create_daemon] returns 1. *)
Lemma create_daemon_exception (world : list cycle) (cls msg : string) :
  result (daemon_loop fromisoformat cfg world) = inl (Exception cls msg) ->
  create_daemon fromisoformat cfg ForkChild world
  = ((Fork :: Setsid :: trace (daemon_loop fromisoformat cfg world))
       ++ [LogRecord Logging.ERROR ("Unexpected exception: " ++ msg)],
     Returned 1)%list.
Proof.
  unfold create_daemon.
  destruct (daemon_loop fromisoformat cfg world) as [t r].
  cbn [result snd trace fst]. intros ->. reflexivity.
Qed.

End Loop.

(** C1, as the program has it.  When the call of the Calendar API raises
    an exception of class [Exception] in a cycle (the service created, the
    hour outside the sleep hours, the cycles before it completed), the
    cycle stops there with no process launched, the failure is logged at
    level [ERROR], and [create_daemon] returns 1: the loop ends, and no
    later cycle of the script runs, whatever it holds. *)
Theorem C1_fetch_failure_ends_the_loop
        (fromisoformat : string -> exn + Datetime.datetime) (cfg : config)
        (pre : list cycle) (c : cycle) (rest : list cycle)
        (cls msg : string) :
  result (daemon_loop fromisoformat cfg pre) = inr tt ->
  service c = None ->
  sleep_hours_skip (Datetime.hour (Datetime.now (clock c))) (SLEEP_HOURS cfg)
    = false ->
  events_result c = inl (Exception cls msg) ->
  create_daemon fromisoformat cfg ForkChild (pre ++ c :: rest)
  = ((Fork :: Setsid :: trace (daemon_loop fromisoformat cfg pre))
       ++ [CreateService;
           EventsList "primary" (utcnow_isoformat c ++ "Z") 10 true "startTime";
           LogRecord Logging.ERROR ("Unexpected exception: " ++ msg)],
     Returned 1)%list.
Proof.
  intros Hpre Hsvc Hskip Hfetch.
  pose proof (monitor_events_fetch_raises fromisoformat cfg c _
                Hsvc Hskip Hfetch) as Hc.
  assert (Hloop : daemon_loop fromisoformat cfg (pre ++ c :: rest)
                  = ((trace (daemon_loop fromisoformat cfg pre)
                        ++ [CreateService;
                            EventsList "primary" (utcnow_isoformat c ++ "Z")
                                       10 true "startTime"])%list,
                     inl (Exception cls msg))).
  { rewrite (daemon_loop_app fromisoformat cfg pre (c :: rest) Hpre).
    rewrite (daemon_loop_cycle_raises fromisoformat cfg c rest
               (Exception cls msg)) by (rewrite Hc; reflexivity).
    rewrite Hc. reflexivity. }
  rewrite (create_daemon_exception fromisoformat cfg _ cls msg)
    by (rewrite Hloop; reflexivity).
  rewrite Hloop. cbn [trace fst].
  rewrite !app_comm_cons, <- app_assoc. reflexivity.
Qed.

Lemma C1_witness :
  create_daemon Datetime.fromisoformat_basic settings ForkChild
                [Sample.fetch_fails; Sample.fetch_works]
  = ([Fork; Setsid; CreateService;
      EventsList "primary" "2026-11-04T13:00:00.000250Z" 10 true "startTime";
      LogRecord 40 "Unexpected exception: 503 Service Unavailable"],
     Returned 1).
Proof.
  apply (C1_fetch_failure_ends_the_loop Datetime.fromisoformat_basic settings
           [] Sample.fetch_fails [Sample.fetch_works]
           "HttpError" "503 Service Unavailable");
    reflexivity.
Defined.

(** C1 as claimed fails: after the cycle in which the fetch raises, the
    cycle in which it would succeed never runs.  Alone, that cycle sends
    its reminder and leaves the daemon running; after the failure the
    daemon has returned 1. *)
Lemma C1_loop_does_not_continue :
  ~ loop_continues_after Datetime.fromisoformat_basic settings
      Sample.fetch_fails Sample.fetch_works
  /\ snd (create_daemon Datetime.fromisoformat_basic settings ForkChild
            [Sample.fetch_fails; Sample.fetch_works]) = Returned 1
  /\ existsb is_popen
       (fst (create_daemon Datetime.fromisoformat_basic settings ForkChild
               [Sample.fetch_fails; Sample.fetch_works])) = false
  /\ create_daemon Datetime.fromisoformat_basic settings ForkChild
                   [Sample.fetch_works]
     = ([Fork; Setsid; CreateService;
         EventsList "primary" "2026-11-04T13:01:00.000250Z" 10 true
                    "startTime";
         Popen ["notify-send"; "-t"; "50000"; "Upcoming event: Standup";
                "In 5 minutes [2026-11-04T10:06:00-03:00] -> Standup"];
         Popen ["play"; "5glasses.ogg"];
         Sleep 59],
        Running).
Proof.
  split; [| repeat split].
  intros (t1 & t2 & _ & Hend). vm_compute in Hend. discriminate Hend.
Qed.

(** ** Time differences *)

Lemma timedelta_new_seconds (d s us : Z) :
  Datetime.seconds (Datetime.timedelta_new d s us)
  = (((d * 86400 + s) * 1000000 + us) / 1000000) mod 86400.
Proof.
  unfold Datetime.timedelta_new, Py.divmod. cbn [Datetime.seconds].
  change (24 * 3600) with 86400.
  rewrite (Z.div_small (us mod 1000000)) by (apply Z.mod_pos_bound; lia).
  rewrite Z.add_0_r, <- Z.add_mod by lia.
  rewrite Z.div_add_l by lia.
  replace (d * 86400 + s + us / 1000000) with (s + us / 1000000 + d * 86400)
    by ring.
  rewrite Z.mod_add by lia. reflexivity.
Qed.

(** [timedelta_new] keeps the duration and normalises its fields. *)
Lemma timedelta_new_total (d s us : Z) :
  Datetime.total_microseconds (Datetime.timedelta_new d s us)
  = (d * 86400 + s) * 1000000 + us
  /\ 0 <= Datetime.seconds (Datetime.timedelta_new d s us) < 86400
  /\ 0 <= Datetime.microseconds (Datetime.timedelta_new d s us) < 1000000.
Proof.
  unfold Datetime.total_microseconds, Datetime.timedelta_new, Py.divmod.
  cbn [Datetime.seconds Datetime.days Datetime.microseconds].
  change (24 * 3600) with 86400.
  rewrite (Z.mod_small (us mod 1000000)) by (apply Z.mod_pos_bound; lia).
  rewrite (Z.div_small (us mod 1000000)) by (apply Z.mod_pos_bound; lia).
  rewrite Z.add_0_r.
  split; [| split; apply Z.mod_pos_bound; lia].
  pose proof (Z.div_mod s 86400 ltac:(lia)).
  pose proof (Z.div_mod us 1000000 ltac:(lia)).
  pose proof (Z.div_mod (us / 1000000) 86400 ltac:(lia)).
  pose proof (Z.div_mod (s mod 86400 + (us / 1000000) mod 86400) 86400
                ltac:(lia)).
  lia.
Qed.

(** The [seconds] field of the difference of two naive values: the whole
    seconds between them, less the whole days. *)
Lemma sub_naive_seconds (a b : Datetime.datetime) :
  Datetime.tzinfo a = None ->
  Datetime.tzinfo b = None ->
  exists td,
    Datetime.sub a b = inr td
    /\ Datetime.seconds td
       = ((Datetime.instant a - Datetime.instant b) / 1000000) mod 86400.
Proof.
  intros Ha Hb. unfold Datetime.sub. rewrite Ha, Hb.
  eexists. split; [reflexivity |].
  rewrite timedelta_new_seconds. unfold Datetime.instant.
  f_equal. f_equal. ring.
Qed.

(** The minutes left as the program computes them, for any start and any
    clock reading: the whole seconds from now to the start, whole days
    dropped, divided by 60 and rounded. *)
Lemma mins_left_seconds (start_datetime clock : Datetime.datetime) :
  mins_left start_datetime (Datetime.now clock)
  = inr (Py.round_div
           (((Datetime.instant start_datetime - Datetime.instant clock)
               / 1000000) mod 86400) 60).
Proof.
  unfold mins_left.
  destruct (sub_naive_seconds (Datetime.replace_tzinfo_None start_datetime)
              (Datetime.now clock) eq_refl eq_refl) as (td & -> & Hsec).
  rewrite Hsec. reflexivity.
Qed.

(** Less than a day ahead, the minutes left are those of the distance
    [delta] in whole seconds ([frac] is the part of a second cut off). *)
Lemma mins_left_within_a_day (start_datetime clock : Datetime.datetime)
      (delta frac : Z) :
  Datetime.instant start_datetime - Datetime.instant clock
  = delta * 1000000 + frac ->
  0 <= frac < 1000000 ->
  0 <= delta < 86400 ->
  mins_left start_datetime (Datetime.now clock)
  = inr (Py.round_div delta 60).
Proof.
  intros Hdist Hfrac Hdelta. rewrite mins_left_seconds, Hdist.
  rewrite Z.div_add_l by lia.
  rewrite (Z.div_small frac) by lia.
  rewrite Z.add_0_r, Z.mod_small by lia. reflexivity.
Qed.

(** [round_div] rounds to a nearest integer, and at a tie to the even
    one. *)
Lemma round_div_nearest (n : Z) :
  -30 <= 60 * Py.round_div n 60 - n <= 30.
Proof.
  unfold Py.round_div.
  pose proof (Z.div_mod n 60 ltac:(lia)).
  pose proof (Z.mod_pos_bound n 60 ltac:(lia)).
  destruct (Z.ltb_spec (2 * (n mod 60)) 60);
    [| destruct (Z.ltb_spec 60 (2 * (n mod 60)));
       [| destruct (Z.even (n / 60))]]; lia.
Qed.

Lemma round_div_half_minute (k : Z) :
  Py.round_div (60 * k + 30) 60 = if Z.even k then k else k + 1.
Proof.
  unfold Py.round_div.
  replace (60 * k + 30) with (30 + k * 60) by ring.
  rewrite Z.div_add, Z.mod_add by lia.
  reflexivity.
Qed.

Lemma round_div_half_minute_even (k : Z) :
  Z.even (Py.round_div (60 * k + 30) 60) = true.
Proof.
  rewrite round_div_half_minute. destruct (Z.even k) eqn:Hk; [exact Hk |].
  rewrite Z.even_add, Hk. reflexivity.
Qed.

(** Less than a day ahead and at an exact half minute, the minutes left
    are the even one of the two nearest integers. *)
Lemma mins_left_half_minute_within_a_day
      (start_datetime clock : Datetime.datetime) (k : Z) :
  Datetime.instant start_datetime - Datetime.instant clock
  = (60 * k + 30) * 1000000 ->
  0 <= 60 * k + 30 < 86400 ->
  mins_left start_datetime (Datetime.now clock)
  = inr (if Z.even k then k else k + 1).
Proof.
  intros Hdist Hrange.
  rewrite (mins_left_within_a_day start_datetime clock (60 * k + 30) 0)
    by lia.
  rewrite round_div_half_minute. reflexivity.
Qed.

(** Less than a day ahead, an event is matched exactly when the rounded
    minutes of its distance are in [MINUTES_LEFT]. *)
Lemma event_step_within_a_day
      (fromisoformat : string -> exn + Datetime.datetime) (cfg : config)
      (clock start_datetime : Datetime.datetime) (st : event_start)
      (start title : string) (delta frac : Z) :
  (match st_dateTime st with Some s => Some s | None => st_date st end)
  = Some start ->
  fromisoformat start = inr start_datetime ->
  Datetime.instant start_datetime - Datetime.instant clock
  = delta * 1000000 + frac ->
  0 <= frac < 1000000 ->
  0 <= delta < 86400 ->
  event_step fromisoformat cfg (Datetime.now clock)
             (mk_event (Some st) (Some title))
  = inr (if Py.contains (Py.round_div delta 60) (MINUTES_LEFT cfg)
         then Some (mk_Alert title start (Py.round_div delta 60))
         else None).
Proof.
  intros Hstart Hparse Hdist Hfrac Hdelta.
  unfold event_step. cbn [ev_start ev_summary].
  rewrite Hstart, Hparse.
  rewrite (mins_left_within_a_day _ _ _ _ Hdist Hfrac Hdelta).
  reflexivity.
Qed.

(** ** Events a day or more ahead, and events already started *)

(** C2, where the program departs from it.  At 10:00:00 an appointment
    tomorrow at 10:01:00 is 86460 seconds ahead; 86460 / 60 rounds to 1441,
    which is not in [MINUTES_LEFT], so the event is not to be matched.  The
    program takes the [seconds] field of the difference, 60, drops the day,
    and sends the reminder "In 1 minutes". *)
Theorem C2_event_a_day_ahead_is_matched :
  exists start_datetime,
    Datetime.fromisoformat_basic "2026-11-05T10:01:00-03:00"
    = inr start_datetime
    /\ Datetime.instant start_datetime
       - Datetime.instant (Sample.at_ 2026 11 4 10 0 0)
       = 86460 * 1000000
    /\ Py.round_div 86460 60 = 1441
    /\ Py.contains 1441 (MINUTES_LEFT settings) = false
    /\ mins_left start_datetime (Datetime.now (Sample.at_ 2026 11 4 10 0 0))
       = inr 1
    /\ monitor_events Datetime.fromisoformat_basic settings
         (Sample.at_ten (inr (Some [Sample.tomorrow])))
       = ([CreateService;
           EventsList "primary" "2026-11-04T13:00:00.000250Z" 10 true
                      "startTime";
           Popen ["notify-send"; "-t"; "50000"; "Upcoming event: Dentist";
                  "In 1 minutes [2026-11-05T10:01:00-03:00] -> Dentist"];
           Popen ["play"; "5glasses.ogg"]],
          inr tt).
Proof.
  eexists. split; [reflexivity |]. repeat split.
Qed.

(** C3, where the program departs from it.  At 10:00:00 a conference that
    began yesterday at 10:01:00 and still goes on started 86340 seconds
    ago.  The difference is minus one day plus 60 seconds; the program
    takes the 60 seconds and sends the reminder "In 1 minutes" for an
    event in the past. *)
Theorem C3_event_in_the_past_is_matched :
  exists start_datetime,
    Datetime.fromisoformat_basic "2026-11-03T10:01:00-03:00"
    = inr start_datetime
    /\ Datetime.instant start_datetime
       - Datetime.instant (Sample.at_ 2026 11 4 10 0 0)
       = - 86340 * 1000000
    /\ Datetime.sub (Datetime.replace_tzinfo_None start_datetime)
                    (Datetime.now (Sample.at_ 2026 11 4 10 0 0))
       = inr (Datetime.mk_timedelta (-1) 60 0)
    /\ mins_left start_datetime (Datetime.now (Sample.at_ 2026 11 4 10 0 0))
       = inr 1
    /\ monitor_events Datetime.fromisoformat_basic settings
         (Sample.at_ten (inr (Some [Sample.ongoing])))
       = ([CreateService;
           EventsList "primary" "2026-11-04T13:00:00.000250Z" 10 true
                      "startTime";
           Popen ["notify-send"; "-t"; "50000"; "Upcoming event: Conference";
                  "In 1 minutes [2026-11-03T10:01:00-03:00] -> Conference"];
           Popen ["play"; "5glasses.ogg"]],
          inr tt).
Proof.
  eexists. split; [reflexivity |]. repeat split.
Qed.

(** C10, where the program departs from it.  Ties go to the even minute:
    at 10:00:00 a start at 10:01:30, 90 seconds ahead, has 2 minutes left,
    and so has one at 10:02:30, 150 seconds ahead.  But a start tomorrow at
    10:00:30 is 86430 seconds, 1440.5 minutes, ahead, which rounds to the
    even 1440; the program drops the day, rounds 30 / 60, and finds 0. *)
Theorem C10_half_minute_a_day_ahead :
  (exists d90 d150,
      Datetime.fromisoformat_basic "2026-11-04T10:01:30-03:00" = inr d90
      /\ Datetime.fromisoformat_basic "2026-11-04T10:02:30-03:00" = inr d150
      /\ mins_left d90 (Datetime.now (Sample.at_ 2026 11 4 10 0 0)) = inr 2
      /\ mins_left d150 (Datetime.now (Sample.at_ 2026 11 4 10 0 0)) = inr 2)
  /\ exists start_datetime,
      Datetime.fromisoformat_basic "2026-11-05T10:00:30-03:00"
      = inr start_datetime
      /\ Datetime.instant start_datetime
         - Datetime.instant (Sample.at_ 2026 11 4 10 0 0)
         = 86430 * 1000000
      /\ Py.round_div 86430 60 = 1440
      /\ mins_left start_datetime
                   (Datetime.now (Sample.at_ 2026 11 4 10 0 0))
         = inr 0.
Proof.
  split.
  - eexists _, _. split; [reflexivity |]. split; [reflexivity |].
    split; reflexivity.
  - eexists. split; [reflexivity |]. repeat split.
Qed.

(** * Further properties *)

(** ** The shape of a cycle *)

Section CycleShape.

Variable fromisoformat : string -> exn + Datetime.datetime.
Variable cfg : config.

Lemma monitor_events_service_raises (c : cycle) (ex : exn) :
  service c = Some ex ->
  monitor_events fromisoformat cfg c = ([CreateService], inl ex).
Proof.
  intros Hsvc. unfold monitor_events, create_service. rewrite Hsvc.
  reflexivity.
Qed.

Lemma monitor_events_scan_raises (c : cycle) (reply : option (list event))
      (ex : exn) :
  service c = None ->
  sleep_hours_skip (Datetime.hour (Datetime.now (clock c))) (SLEEP_HOURS cfg)
    = false ->
  events_result c = inr reply ->
  result (collect_alerts fromisoformat cfg (Datetime.now (clock c))
            (match reply with Some items => items | None => [] end) [])
  = inl ex ->
  monitor_events fromisoformat cfg c
  = ([CreateService;
      EventsList "primary" (utcnow_isoformat c ++ "Z") 10 true "startTime"],
     inl ex).
Proof.
  intros Hsvc Hskip Hreply Hscan.
  rewrite (monitor_events_awake fromisoformat cfg c Hsvc Hskip).
  unfold events_list_execute. rewrite Hreply.
  cbn -[collect_alerts display_reminder Datetime.now append].
  pose proof (collect_alerts_silent fromisoformat cfg (Datetime.now (clock c))
                (match reply with Some items => items | None => [] end) [])
    as Hsilent.
  destruct (collect_alerts _ _ _ _ _) as [t r].
  cbn [trace fst result snd] in Hsilent, Hscan. subst t r. reflexivity.
Qed.

(** Every cycle has one of three traces: the service alone; the service and
    the fetch; or these followed by the calls of the reminder, the
    [notify-send] and, when that call returns, the audio command. *)
Lemma monitor_events_shape (c : cycle) :
  trace (monitor_events fromisoformat cfg c) = [CreateService]
  \/ trace (monitor_events fromisoformat cfg c)
     = [CreateService;
        EventsList "primary" (utcnow_isoformat c ++ "Z") 10 true "startTime"]
  \/ exists a rest,
      monitor_events fromisoformat cfg c
      = ((CreateService
            :: EventsList "primary" (utcnow_isoformat c ++ "Z") 10 true
                          "startTime"
            :: Popen (notify_argv cfg (a :: rest))
            :: match launch c (notify_argv cfg (a :: rest)) with
               | Some _ => []
               | None => [Popen (AUDIO_PLAY_CMD cfg)]
               end)%list,
         match launch c (notify_argv cfg (a :: rest)) with
         | Some ex => inl ex
         | None => launched (launch c (AUDIO_PLAY_CMD cfg))
         end).
Proof.
  destruct (service c) as [ex |] eqn:Hsvc.
  { left. rewrite (monitor_events_service_raises c ex Hsvc). reflexivity. }
  destruct (sleep_hours_skip (Datetime.hour (Datetime.now (clock c)))
              (SLEEP_HOURS cfg)) eqn:Hskip.
  { left. rewrite (monitor_events_sleep_hour fromisoformat cfg c Hskip).
    reflexivity. }
  destruct (events_result c) as [ex | reply] eqn:Hreply.
  { right. left.
    rewrite (monitor_events_fetch_raises fromisoformat cfg c ex
               Hsvc Hskip Hreply).
    reflexivity. }
  destruct (result (collect_alerts fromisoformat cfg (Datetime.now (clock c))
                      (match reply with Some items => items | None => [] end)
                      [])) as [ex | alerts] eqn:Hscan.
  { right. left.
    rewrite (monitor_events_scan_raises c reply ex Hsvc Hskip Hreply Hscan).
    reflexivity. }
  rewrite (monitor_events_scanned fromisoformat cfg c reply alerts
             Hsvc Hskip Hreply Hscan).
  destruct alerts as [| a rest].
  - right. left. reflexivity.
  - right. right. exists a, rest.
    rewrite (display_reminder_calls cfg (launch c) a rest).
    destruct (launch c (notify_argv cfg (a :: rest))); reflexivity.
Qed.

End CycleShape.

(** X1.  Whatever the service, the clock, the Calendar API and
    [subprocess.Popen] answer, one pass of [monitor_events] makes no
    [Popen] call at all; or the [notify-send] call alone, which raised, and
    then [monitor_events] raises with it; or the [notify-send] call
    followed by one call of the audio command, and then it returns
    normally if the audio command could be started and raises otherwise.
    The audio command is never called without [notify-send] having been
    started before it, nor twice. *)
Theorem X1_no_call_or_notify_then_audio
        (fromisoformat : string -> exn + Datetime.datetime) (cfg : config)
        (c : cycle) :
  filter is_popen (trace (monitor_events fromisoformat cfg c)) = []
  \/ exists a rest,
      (exists ex,
          launch c (notify_argv cfg (a :: rest)) = Some ex
          /\ filter is_popen (trace (monitor_events fromisoformat cfg c))
             = [Popen (notify_argv cfg (a :: rest))]
          /\ result (monitor_events fromisoformat cfg c) = inl ex)
      \/ (launch c (notify_argv cfg (a :: rest)) = None
          /\ filter is_popen (trace (monitor_events fromisoformat cfg c))
             = [Popen (notify_argv cfg (a :: rest));
                Popen (AUDIO_PLAY_CMD cfg)]
          /\ result (monitor_events fromisoformat cfg c)
             = launched (launch c (AUDIO_PLAY_CMD cfg))).
Proof.
  destruct (monitor_events_shape fromisoformat cfg c)
    as [H | [H | (a & rest & H)]].
  - left. rewrite H. reflexivity.
  - left. rewrite H. reflexivity.
  - right. exists a, rest. rewrite H.
    destruct (launch c (notify_argv cfg (a :: rest))) as [ex |].
    + left. exists ex. repeat split.
    + right. repeat split.
Qed.

(** ** The daemon on any script *)

Lemma count_app (kind : effect -> bool) (t1 t2 : list effect) :
  count kind (t1 ++ t2) = (count kind t1 + count kind t2)%nat.
Proof. unfold count. rewrite filter_app, length_app. reflexivity. Qed.

Section Daemon.

Variable fromisoformat : string -> exn + Datetime.datetime.
Variable cfg : config.

Lemma monitor_events_counts (c : cycle) :
  count is_create_service (trace (monitor_events fromisoformat cfg c)) = 1%nat
  /\ count is_sleep (trace (monitor_events fromisoformat cfg c)) = 0%nat
  /\ count is_log (trace (monitor_events fromisoformat cfg c)) = 0%nat.
Proof.
  destruct (monitor_events_shape fromisoformat cfg c)
    as [H | [H | (a & rest & H)]]; rewrite H; try (repeat split; fail).
  destruct (launch c (notify_argv cfg (a :: rest))); repeat split.
Qed.

Lemma daemon_loop_raises_at (pre : list cycle) (c : cycle)
      (rest : list cycle) (ex : exn) :
  result (daemon_loop fromisoformat cfg pre) = inr tt ->
  result (monitor_events fromisoformat cfg c) = inl ex ->
  daemon_loop fromisoformat cfg (pre ++ c :: rest)
  = ((trace (daemon_loop fromisoformat cfg pre)
        ++ trace (monitor_events fromisoformat cfg c))%list,
     inl ex).
Proof.
  intros Hpre Hc.
  rewrite (daemon_loop_app fromisoformat cfg pre (c :: rest) Hpre).
  rewrite (daemon_loop_cycle_raises fromisoformat cfg c rest ex Hc).
  reflexivity.
Qed.

Lemma daemon_loop_all_return (world : list cycle) :
  Forall (fun c => result (monitor_events fromisoformat cfg c) = inr tt)
         world ->
  daemon_loop fromisoformat cfg world
  = (flat_map (cycle_and_sleep fromisoformat cfg) world, inr tt).
Proof.
  induction 1 as [| c rest Hc _ IH]; [reflexivity |].
  rewrite (daemon_loop_cycle_returns fromisoformat cfg c rest Hc), IH.
  cbn [flat_map trace fst result snd]. unfold cycle_and_sleep at 2.
  rewrite <- app_assoc. reflexivity.
Qed.

(** A script either runs through, or stops at its first cycle that
    raises. *)
Lemma daemon_loop_cases (world : list cycle) :
  Forall (fun c => result (monitor_events fromisoformat cfg c) = inr tt)
         world
  \/ exists pre c rest ex,
      world = (pre ++ c :: rest)%list
      /\ Forall (fun c => result (monitor_events fromisoformat cfg c) = inr tt)
                pre
      /\ result (monitor_events fromisoformat cfg c) = inl ex.
Proof.
  induction world as [| c world IH]; [left; constructor |].
  destruct (result (monitor_events fromisoformat cfg c)) as [ex | []] eqn:Hc.
  - right. exists [], c, world, ex. repeat split; [constructor | exact Hc].
  - destruct IH as [Hall | (pre & c' & rest & ex & -> & Hpre & Hc')].
    + left. constructor; assumption.
    + right. exists (c :: pre), c', rest, ex.
      repeat split; [constructor; assumption | exact Hc'].
Qed.

Lemma create_daemon_child (world : list cycle) :
  create_daemon fromisoformat cfg ForkChild world
  = match result (daemon_loop fromisoformat cfg world) with
    | inr _ =>
        ((Fork :: Setsid :: trace (daemon_loop fromisoformat cfg world))%list,
         Running)
    | inl ex =>
        ((Fork :: Setsid :: trace (daemon_loop fromisoformat cfg world))
           ++ records_of_exn ex,
         outcome_of_exn ex)%list
    end.
Proof.
  unfold create_daemon.
  destruct (daemon_loop fromisoformat cfg world) as [t [[arg | cls msg | cls msg] | []]];
    cbn [result snd trace fst]; try reflexivity.
  cbn. rewrite app_nil_r. reflexivity.
Qed.

End Daemon.

Lemma create_daemon_first_exception
      (fromisoformat : string -> exn + Datetime.datetime) (cfg : config)
      (pre : list cycle) (c : cycle) (rest : list cycle) (ex : exn) :
  all_return fromisoformat cfg pre ->
  result (monitor_events fromisoformat cfg c) = inl ex ->
  create_daemon fromisoformat cfg ForkChild (pre ++ c :: rest)
  = ((Fork :: Setsid :: flat_map (cycle_and_sleep fromisoformat cfg) pre)
       ++ trace (monitor_events fromisoformat cfg c)
       ++ records_of_exn ex,
     outcome_of_exn ex)%list.
Proof.
  intros Hpre Hc.
  pose proof (daemon_loop_all_return fromisoformat cfg pre Hpre) as Hloop.
  assert (Hres : result (daemon_loop fromisoformat cfg pre) = inr tt)
    by (rewrite Hloop; reflexivity).
  rewrite create_daemon_child.
  rewrite (daemon_loop_raises_at fromisoformat cfg pre c rest ex Hres Hc).
  cbn [result snd trace fst]. rewrite Hloop. cbn [trace fst].
  rewrite !app_comm_cons, <- !app_assoc. reflexivity.
Qed.

Lemma create_daemon_all_return
      (fromisoformat : string -> exn + Datetime.datetime) (cfg : config)
      (world : list cycle) :
  all_return fromisoformat cfg world ->
  create_daemon fromisoformat cfg ForkChild world
  = ((Fork :: Setsid :: flat_map (cycle_and_sleep fromisoformat cfg) world)%list,
     Running).
Proof.
  intros Hall. rewrite create_daemon_child.
  rewrite (daemon_loop_all_return fromisoformat cfg world Hall).
  reflexivity.
Qed.

(** X2.  The first cycle in which [monitor_events] raises ends the daemon,
    whatever raised (the service, the fetch, an event that cannot be read)
    and also in a sleep hour: the cycles before it each ran and slept, the
    failing cycle is not followed by a sleep, no later cycle runs, and
    [create_daemon] returns 1 after one [ERROR] record for an [Exception],
    returns 0 with no record for a [SystemExit], and lets any other
    exception out. *)
Theorem X2_first_exception_ends_the_daemon
        (fromisoformat : string -> exn + Datetime.datetime) (cfg : config)
        (pre : list cycle) (c : cycle) (rest : list cycle) (ex : exn) :
  all_return fromisoformat cfg pre ->
  result (monitor_events fromisoformat cfg c) = inl ex ->
  create_daemon fromisoformat cfg ForkChild (pre ++ c :: rest)
  = ((Fork :: Setsid :: flat_map (cycle_and_sleep fromisoformat cfg) pre)
       ++ trace (monitor_events fromisoformat cfg c)
       ++ records_of_exn ex,
     outcome_of_exn ex)%list.
Proof. apply create_daemon_first_exception. Qed.

Lemma X2_witness :
  create_daemon Datetime.fromisoformat_basic settings ForkChild
    [Sample.at_ten (inr (Some []));
     with_service (Sample.at_night (inr (Some [])))
                  (Some (Exception "RefreshError" "invalid_grant"));
     Sample.fetch_works]
  = ([Fork; Setsid; CreateService;
      EventsList "primary" "2026-11-04T13:00:00.000250Z" 10 true "startTime";
      Sleep 59;
      CreateService;
      LogRecord 40 "Unexpected exception: invalid_grant"],
     Returned 1).
Proof.
  apply (X2_first_exception_ends_the_daemon Datetime.fromisoformat_basic
           settings [Sample.at_ten (inr (Some []))]
           (with_service (Sample.at_night (inr (Some [])))
                         (Some (Exception "RefreshError" "invalid_grant")))
           [Sample.fetch_works]
           (Exception "RefreshError" "invalid_grant")).
  - repeat constructor.
  - reflexivity.
Defined.

(** X3.  As long as every cycle returns, the daemon does not end: it does,
    for each cycle in turn, what [monitor_events] does and then sleeps
    once, and nothing else after the fork and [setsid]. *)
Theorem X3_daemon_runs_through
        (fromisoformat : string -> exn + Datetime.datetime) (cfg : config)
        (world : list cycle) :
  all_return fromisoformat cfg world ->
  create_daemon fromisoformat cfg ForkChild world
  = ((Fork :: Setsid :: flat_map (cycle_and_sleep fromisoformat cfg) world)%list,
     Running).
Proof. apply create_daemon_all_return. Qed.

Lemma X3_witness :
  create_daemon Datetime.fromisoformat_basic settings ForkChild
    [Sample.at_ten (inr None); Sample.fetch_works;
     Sample.at_night (inr (Some [Sample.standup]))]
  = ([Fork; Setsid;
      CreateService;
      EventsList "primary" "2026-11-04T13:00:00.000250Z" 10 true "startTime";
      Sleep 59;
      CreateService;
      EventsList "primary" "2026-11-04T13:01:00.000250Z" 10 true "startTime";
      Popen ["notify-send"; "-t"; "50000"; "Upcoming event: Standup";
             "In 5 minutes [2026-11-04T10:06:00-03:00] -> Standup"];
      Popen ["play"; "5glasses.ogg"];
      Sleep 59;
      CreateService;
      Sleep 59],
     Running).
Proof.
  apply (X3_daemon_runs_through Datetime.fromisoformat_basic settings
           [Sample.at_ten (inr None); Sample.fetch_works;
            Sample.at_night (inr (Some [Sample.standup]))]).
  repeat constructor.
Defined.

Lemma count_flat_map_cycles
      (fromisoformat : string -> exn + Datetime.datetime) (cfg : config)
      (world : list cycle) :
  count is_create_service (flat_map (cycle_and_sleep fromisoformat cfg) world)
  = List.length world
  /\ count is_sleep (flat_map (cycle_and_sleep fromisoformat cfg) world)
     = List.length world
  /\ count is_log (flat_map (cycle_and_sleep fromisoformat cfg) world) = 0%nat.
Proof.
  induction world as [| c world (IHs & IHz & IHl)]; [repeat split |].
  cbn [flat_map List.length]. unfold cycle_and_sleep at 1 3 5.
  rewrite !count_app, IHs, IHz, IHl.
  destruct (monitor_events_counts fromisoformat cfg c) as (-> & -> & ->).
  repeat split.
Qed.

Lemma count_records_of_exn (ex : exn) :
  count is_create_service (records_of_exn ex) = 0%nat
  /\ count is_sleep (records_of_exn ex) = 0%nat
  /\ (count is_log (records_of_exn ex) <= 1)%nat
  /\ Forall (fun e => forall lvl msg,
                 e = LogRecord lvl msg -> lvl = Logging.ERROR)
            (records_of_exn ex).
Proof.
  destruct ex; cbn; repeat split; try lia; try constructor;
    try constructor.
  intros lvl m H. injection H as Hlvl _. symmetry. exact Hlvl.
Qed.

Lemma no_log_no_record (t : list effect) :
  count is_log t = 0%nat ->
  Forall (fun e => forall lvl msg,
              e = LogRecord lvl msg -> lvl = Logging.ERROR) t.
Proof.
  unfold count. induction t as [| e t IH]; intros H; constructor.
  - intros lvl msg ->. cbn in H. discriminate H.
  - apply IH. cbn [filter] in H.
    destruct (is_log e); [cbn in H; discriminate H | exact H].
Qed.

(** X4.  The only records the program ever logs are at level [ERROR], and
    a run logs at most one: the calls to [debug], [info] and [warn] are
    below the level set by [basicConfig].  So a daemon that is running,
    one that ends on [SystemExit] with code 0, and the parent that exits
    after the fork log nothing; in particular the messages "Daemon has
    been started" and "Exiting" are never written. *)
Theorem X4_only_error_records
        (fromisoformat : string -> exn + Datetime.datetime) (cfg : config)
        (fk : fork_result) (world : list cycle) :
  Forall (fun e => forall lvl msg,
              e = LogRecord lvl msg -> lvl = Logging.ERROR)
         (fst (create_daemon fromisoformat cfg fk world))
  /\ (count is_log (fst (create_daemon fromisoformat cfg fk world)) <= 1)%nat
  /\ (snd (create_daemon fromisoformat cfg fk world) = Running
      \/ snd (create_daemon fromisoformat cfg fk world) = Returned 0
      \/ snd (create_daemon fromisoformat cfg fk world) = ProcessExit 0 ->
      count is_log (fst (create_daemon fromisoformat cfg fk world)) = 0%nat).
Proof.
  destruct fk as [errno strerror | | pid].
  - cbn. repeat split.
    + constructor; [intros lvl msg H; discriminate H |].
      constructor; [| constructor].
      intros lvl msg H. injection H as Hlvl _. symmetry. exact Hlvl.
    + lia.
    + intros [H | [H | H]]; discriminate H.
  - rewrite create_daemon_child.
    destruct (daemon_loop_cases fromisoformat cfg world)
      as [Hall | (pre & c & rest & ex & -> & Hpre & Hc)].
    + rewrite (daemon_loop_all_return fromisoformat cfg world Hall).
      cbn [result snd trace fst].
      destruct (count_flat_map_cycles fromisoformat cfg world)
        as (_ & _ & Hlog).
      assert (Hcount : count is_log
                         (Fork :: Setsid
                            :: flat_map (cycle_and_sleep fromisoformat cfg)
                                        world) = 0%nat) by exact Hlog.
      repeat split; [apply no_log_no_record; exact Hcount | lia | auto].
    + pose proof (daemon_loop_all_return fromisoformat cfg pre Hpre) as Hloop.
      rewrite (daemon_loop_raises_at fromisoformat cfg pre c rest ex)
        by (rewrite ?Hloop; auto).
      cbn [result snd trace fst]. rewrite Hloop. cbn [trace fst].
      destruct (count_flat_map_cycles fromisoformat cfg pre) as (_ & _ & Hlog).
      destruct (monitor_events_counts fromisoformat cfg c) as (_ & _ & Hclog).
      destruct (count_records_of_exn ex) as (_ & _ & Hle & Hlvl).
      assert (Hcount : count is_log
                         (Fork :: Setsid
                            :: flat_map (cycle_and_sleep fromisoformat cfg) pre
                            ++ trace (monitor_events fromisoformat cfg c))
                       = 0%nat).
      { change (count is_log
                  (flat_map (cycle_and_sleep fromisoformat cfg) pre
                     ++ trace (monitor_events fromisoformat cfg c)) = 0%nat).
        rewrite count_app, Hlog, Hclog. reflexivity. }
      repeat split.
      * apply Forall_app. split; [apply no_log_no_record; exact Hcount | exact Hlvl].
      * rewrite count_app, Hcount. exact Hle.
      * rewrite count_app, Hcount.
        destruct ex; cbn; intros [H | [H | H]]; try discriminate H; reflexivity.
  - cbn. repeat split; [repeat constructor; intros; discriminate | lia].
Qed.

(** X5.  In the child, every cycle begun is followed by exactly one sleep,
    except the cycle that ends the daemon, which is followed by none: the
    trace holds as many sleeps as calls of [create_service] while the
    daemon runs, one fewer once it has ended, and never more cycles than
    the script has. *)
Theorem X5_one_sleep_per_finished_cycle
        (fromisoformat : string -> exn + Datetime.datetime) (cfg : config)
        (world : list cycle) :
  count is_create_service
        (fst (create_daemon fromisoformat cfg ForkChild world))
  = (count is_sleep (fst (create_daemon fromisoformat cfg ForkChild world))
     + match snd (create_daemon fromisoformat cfg ForkChild world) with
       | Running => 0
       | _ => 1
       end)%nat
  /\ (count is_create_service
            (fst (create_daemon fromisoformat cfg ForkChild world))
      <= List.length world)%nat.
Proof.
  destruct (daemon_loop_cases fromisoformat cfg world)
    as [Hall | (pre & c & rest & ex & -> & Hpre & Hc)].
  - rewrite (create_daemon_all_return fromisoformat cfg world Hall).
    cbn [fst snd].
    destruct (count_flat_map_cycles fromisoformat cfg world) as (Hs & Hz & _).
    change (count is_create_service
              (flat_map (cycle_and_sleep fromisoformat cfg) world)
            = (count is_sleep
                     (flat_map (cycle_and_sleep fromisoformat cfg) world)
               + 0)%nat
            /\ (count is_create_service
                      (flat_map (cycle_and_sleep fromisoformat cfg) world)
                <= List.length world)%nat).
    rewrite Hs, Hz. lia.
  - rewrite (create_daemon_first_exception fromisoformat cfg
               pre c rest ex Hpre Hc).
    cbn [fst snd].
    destruct (count_flat_map_cycles fromisoformat cfg pre) as (Hs & Hz & _).
    destruct (monitor_events_counts fromisoformat cfg c) as (Hcs & Hcz & _).
    destruct (count_records_of_exn ex) as (Hrs & Hrz & _).
    rewrite !count_app, Hcs, Hcz, Hrs, Hrz, length_app.
    change (count is_create_service
              (Fork :: Setsid
                 :: flat_map (cycle_and_sleep fromisoformat cfg) pre))
      with (count is_create_service
              (flat_map (cycle_and_sleep fromisoformat cfg) pre)).
    change (count is_sleep
              (Fork :: Setsid
                 :: flat_map (cycle_and_sleep fromisoformat cfg) pre))
      with (count is_sleep
              (flat_map (cycle_and_sleep fromisoformat cfg) pre)).
    rewrite Hs, Hz. cbn [List.length].
    destruct ex; cbn; lia.
Qed.

Lemma daemon_loop_no_fork_no_setsid
      (fromisoformat : string -> exn + Datetime.datetime) (cfg : config)
      (world : list cycle) :
  count is_fork (trace (daemon_loop fromisoformat cfg world)) = 0%nat
  /\ count is_setsid (trace (daemon_loop fromisoformat cfg world)) = 0%nat.
Proof.
  induction world as [| c world (IHf & IHs)]; [split; reflexivity |].
  assert (Hc : count is_fork (trace (monitor_events fromisoformat cfg c))
               = 0%nat
               /\ count is_setsid (trace (monitor_events fromisoformat cfg c))
                  = 0%nat).
  { destruct (monitor_events_shape fromisoformat cfg c)
      as [H | [H | (a & rest & H)]]; rewrite H;
      try (split; reflexivity).
    destruct (launch c (notify_argv cfg (a :: rest))); split; reflexivity. }
  destruct Hc as (Hcf & Hcs).
  destruct (result (monitor_events fromisoformat cfg c)) as [ex | []] eqn:Hres.
  - rewrite (daemon_loop_cycle_raises fromisoformat cfg c world ex Hres).
    split; assumption.
  - rewrite (daemon_loop_cycle_returns fromisoformat cfg c world Hres).
    cbn [trace fst].
    change (Sleep (wait_time (Datetime.now (clock_after c)))
              :: trace (daemon_loop fromisoformat cfg world))
      with ([Sleep (wait_time (Datetime.now (clock_after c)))]
              ++ trace (daemon_loop fromisoformat cfg world))%list.
    rewrite !count_app, Hcf, Hcs, IHf, IHs. split; reflexivity.
Qed.

(** X6.  [create_daemon] forks once, before anything else.  Only the
    child goes on: it calls [setsid] once, right after the fork, and runs
    the cycles.  The parent does nothing more and ends the process with
    status 0; when the fork fails no cycle runs, the error is logged and
    an [Exception] carrying "strerror [errno]" is raised. *)
Theorem X6_only_the_child_runs_cycles
        (fromisoformat : string -> exn + Datetime.datetime) (cfg : config)
        (fk : fork_result) (world : list cycle) :
  exists t,
    fst (create_daemon fromisoformat cfg fk world) = Fork :: t
    /\ count is_fork t = 0%nat
    /\ match fk with
       | ForkChild =>
           exists t', t = Setsid :: t' /\ count is_setsid t' = 0%nat
       | ForkParent _ =>
           t = [] /\ snd (create_daemon fromisoformat cfg fk world)
                     = ProcessExit 0
       | ForkError errno strerror =>
           t = [LogRecord Logging.ERROR
                          ("[Errno " ++ Py.str_of_int errno ++ "] "
                                     ++ strerror)]
           /\ snd (create_daemon fromisoformat cfg fk world)
              = Raised (Exception "Exception"
                          (strerror ++ " [" ++ Py.str_of_int errno ++ "]"))
       end.
Proof.
  destruct fk as [errno strerror | | pid].
  - eexists. repeat split.
  - rewrite create_daemon_child.
    destruct (daemon_loop_no_fork_no_setsid fromisoformat cfg world)
      as (Hf & Hs).
    destruct (result (daemon_loop fromisoformat cfg world)) as [ex | []].
    + eexists. split; [reflexivity |]. split.
      * change (count is_fork
                  (trace (daemon_loop fromisoformat cfg world)
                     ++ records_of_exn ex) = 0%nat).
        rewrite count_app, Hf. destruct ex; reflexivity.
      * eexists. split; [reflexivity |].
        rewrite count_app, Hs. destruct ex; reflexivity.
    + eexists. split; [reflexivity |]. split; [exact Hf |].
      eexists. split; [reflexivity | exact Hs].
  - eexists. repeat split.
Qed.

(** ** Events that cannot be read, and the order of the alerts *)

Section Readable.

Variable fromisoformat : string -> exn + Datetime.datetime.
Variable cfg : config.

Lemma matched_app (now : Datetime.datetime) (evs1 evs2 : list event) :
  matched fromisoformat cfg now (evs1 ++ evs2)
  = (matched fromisoformat cfg now evs1
       ++ matched fromisoformat cfg now evs2)%list.
Proof. unfold matched. apply flat_map_app. Qed.

(** Readable events are scanned into their matches, in order, and the scan
    goes on with what follows them. *)
Lemma collect_alerts_readable (now : Datetime.datetime)
      (pre evs : list event) (alerts : list Alert) :
  Forall (readable fromisoformat cfg now) pre ->
  collect_alerts fromisoformat cfg now (pre ++ evs) alerts
  = collect_alerts fromisoformat cfg now evs
                   (alerts ++ matched fromisoformat cfg now pre)%list.
Proof.
  intros Hpre. revert alerts.
  induction Hpre as [| ev pre [r Hev] _ IH]; intros alerts.
  - cbn. rewrite app_nil_r. reflexivity.
  - cbn [app]. rewrite collect_alerts_cons, Hev.
    unfold matched. cbn [flat_map]. fold (matched fromisoformat cfg now pre).
    rewrite Hev. destruct r as [a |].
    + rewrite IH, <- app_assoc. reflexivity.
    + rewrite IH. reflexivity.
Qed.

Lemma collect_alerts_unreadable (now : Datetime.datetime)
      (pre : list event) (ev : event) (rest : list event)
      (alerts : list Alert) (ex : exn) :
  Forall (readable fromisoformat cfg now) pre ->
  event_step fromisoformat cfg now ev = inl ex ->
  collect_alerts fromisoformat cfg now (pre ++ ev :: rest) alerts
  = ([], inl ex).
Proof.
  intros Hpre Hev. rewrite (collect_alerts_readable now pre _ alerts Hpre).
  rewrite collect_alerts_cons, Hev. reflexivity.
Qed.

End Readable.

Lemma events_cases (fromisoformat : string -> exn + Datetime.datetime)
      (cfg : config) (now : Datetime.datetime) (events : list event) :
  Forall (readable fromisoformat cfg now) events
  \/ exists pre ev rest ex,
      events = (pre ++ ev :: rest)%list
      /\ Forall (readable fromisoformat cfg now) pre
      /\ event_step fromisoformat cfg now ev = inl ex.
Proof.
  induction events as [| ev events IH]; [left; constructor |].
  destruct (event_step fromisoformat cfg now ev) as [ex | r] eqn:Hev.
  - right. exists [], ev, events, ex. repeat split; [constructor | exact Hev].
  - assert (Hr : readable fromisoformat cfg now ev) by (exists r; exact Hev).
    destruct IH as [Hall | (pre & ev' & rest & ex & -> & Hpre & Hev')].
    + left. constructor; assumption.
    + right. exists (ev :: pre), ev', rest, ex.
      repeat split; [constructor; assumption | exact Hev'].
Qed.

(** X7.  When the Calendar API answers with no event, be it an empty
    ['items'] list or a reply without the key, the cycle ends there: the
    service was created, the fetch made, nothing is launched and
    [monitor_events] returns normally. *)
Theorem X7_no_event_no_launch
        (fromisoformat : string -> exn + Datetime.datetime) (cfg : config)
        (c : cycle) (reply : option (list event)) :
  service c = None ->
  sleep_hours_skip (Datetime.hour (Datetime.now (clock c))) (SLEEP_HOURS cfg)
    = false ->
  events_result c = inr reply ->
  reply = None \/ reply = Some [] ->
  monitor_events fromisoformat cfg c
  = ([CreateService;
      EventsList "primary" (utcnow_isoformat c ++ "Z") 10 true "startTime"],
     inr tt).
Proof.
  intros Hsvc Hskip Hreply Hempty.
  apply (monitor_events_scanned fromisoformat cfg c reply [] Hsvc Hskip Hreply).
  destruct Hempty as [-> | ->]; reflexivity.
Qed.

Lemma X7_witness :
  monitor_events Datetime.fromisoformat_basic settings
                 (Sample.at_ten (inr None))
  = ([CreateService;
      EventsList "primary" "2026-11-04T13:00:00.000250Z" 10 true "startTime"],
     inr tt).
Proof.
  apply (X7_no_event_no_launch Datetime.fromisoformat_basic settings
           (Sample.at_ten (inr None)) None);
    [reflexivity | reflexivity | reflexivity | left; reflexivity].
Defined.

(** X8.  One event that cannot be read aborts the whole cycle: when the
    events before it are read without trouble and reading it raises,
    [monitor_events] raises that exception after the fetch and launches
    nothing, also when events before it were due; the alerts collected so
    far are lost and the events after it are not looked at. *)
Theorem X8_unreadable_event_aborts_the_cycle
        (fromisoformat : string -> exn + Datetime.datetime) (cfg : config)
        (c : cycle) (pre : list event) (ev : event) (rest : list event)
        (ex : exn) :
  service c = None ->
  sleep_hours_skip (Datetime.hour (Datetime.now (clock c))) (SLEEP_HOURS cfg)
    = false ->
  events_result c = inr (Some (pre ++ ev :: rest)%list) ->
  Forall (readable fromisoformat cfg (Datetime.now (clock c))) pre ->
  event_step fromisoformat cfg (Datetime.now (clock c)) ev = inl ex ->
  monitor_events fromisoformat cfg c
  = ([CreateService;
      EventsList "primary" (utcnow_isoformat c ++ "Z") 10 true "startTime"],
     inl ex).
Proof.
  intros Hsvc Hskip Hreply Hpre Hev.
  apply (monitor_events_scan_raises fromisoformat cfg c
           (Some (pre ++ ev :: rest)%list) ex Hsvc Hskip Hreply).
  rewrite (collect_alerts_unreadable fromisoformat cfg _ pre ev rest [] ex
             Hpre Hev).
  reflexivity.
Qed.

Lemma X8_witness :
  monitor_events Datetime.fromisoformat_basic settings
    (Sample.at_ten (inr (Some [Sample.standup; Sample.untitled;
                               Sample.tomorrow])))
  = ([CreateService;
      EventsList "primary" "2026-11-04T13:00:00.000250Z" 10 true "startTime"],
     inl (Exception "KeyError" "'summary'")).
Proof.
  apply (X8_unreadable_event_aborts_the_cycle Datetime.fromisoformat_basic
           settings
           (Sample.at_ten (inr (Some [Sample.standup; Sample.untitled;
                                      Sample.tomorrow])))
           [Sample.standup] Sample.untitled [Sample.tomorrow]
           (Exception "KeyError" "'summary'")).
  - reflexivity.
  - reflexivity.
  - reflexivity.
  - constructor; [| constructor]. eexists. reflexivity.
  - reflexivity.
Defined.

(** X10.  The scan returns exactly when every event can be read, and then
    its alerts are the alerts of the due events, one for each, in the
    order in which the events were listed. *)
Theorem X10_alerts_are_the_due_events_in_order
        (fromisoformat : string -> exn + Datetime.datetime) (cfg : config)
        (now : Datetime.datetime) (events : list event)
        (alerts : list Alert) :
  result (collect_alerts fromisoformat cfg now events []) = inr alerts
  <-> Forall (readable fromisoformat cfg now) events
      /\ alerts = matched fromisoformat cfg now events.
Proof.
  split.
  - intros H.
    destruct (events_cases fromisoformat cfg now events)
      as [Hall | (pre & ev & rest & ex & -> & Hpre & Hev)].
    + split; [exact Hall |].
      pose proof (collect_alerts_readable fromisoformat cfg now events [] []
                    Hall) as Hscan.
      rewrite app_nil_r in Hscan. rewrite Hscan in H.
      cbn in H. injection H as <-. reflexivity.
    + rewrite (collect_alerts_unreadable fromisoformat cfg now pre ev rest []
                 ex Hpre Hev) in H.
      discriminate H.
  - intros [Hall ->].
    pose proof (collect_alerts_readable fromisoformat cfg now events [] []
                  Hall) as Hscan.
    rewrite app_nil_r in Hscan. rewrite Hscan. reflexivity.
Qed.

(** ** Minutes left *)

Lemma round_div_day_range (s : Z) :
  0 <= s < 86400 -> 0 <= Py.round_div s 60 <= 1440.
Proof.
  intros Hs. pose proof (round_div_nearest s). lia.
Qed.

Lemma mins_left_total (start_datetime clock : Datetime.datetime) :
  exists m,
    mins_left start_datetime (Datetime.now clock) = inr m
    /\ 0 <= m <= 1440.
Proof.
  rewrite mins_left_seconds. eexists. split; [reflexivity |].
  apply round_div_day_range. apply Z.mod_pos_bound. lia.
Qed.

(** X9.  The ways an event can make the scan raise are four and no more:
    it has no ['start'] ([KeyError]); it has no ['summary'] ([KeyError],
    however far away the event is); its ['start'] has neither ['dateTime']
    nor ['date'] ([TypeError]); or [fromisoformat] refuses its start text
    and raises.  Computing the minutes left never raises. *)
Theorem X9_why_an_event_cannot_be_read
        (fromisoformat : string -> exn + Datetime.datetime) (cfg : config)
        (clock : Datetime.datetime) (ev : event) (ex : exn) :
  event_step fromisoformat cfg (Datetime.now clock) ev = inl ex
  <-> (ev_start ev = None /\ ex = Exception "KeyError" "'start'")
      \/ (exists st,
             ev_start ev = Some st /\ ev_summary ev = None
             /\ ex = Exception "KeyError" "'summary'")
      \/ (exists st title,
             ev_start ev = Some st /\ ev_summary ev = Some title
             /\ start_text st = None
             /\ ex = Exception "TypeError"
                               "fromisoformat: argument must be str")
      \/ (exists st title start,
             ev_start ev = Some st /\ ev_summary ev = Some title
             /\ start_text st = Some start
             /\ fromisoformat start = inl ex).
Proof.
  unfold event_step, start_text.
  destruct (ev_start ev) as [st |].
  2:{ split.
      - intros [= <-]. left. auto.
      - intros [[_ ->] | [(st & H & _) | [(st & t & H & _)
                                         | (st & t & s & H & _)]]];
          [reflexivity | discriminate H ..]. }
  destruct (ev_summary ev) as [title |].
  2:{ split.
      - intros [= <-]. right. left. exists st. auto.
      - intros [[H _] | [(st' & _ & _ & ->) | [(st' & t & _ & H & _)
                                              | (st' & t & s & _ & H & _)]]];
          [discriminate H | reflexivity | discriminate H ..]. }
  destruct (match st_dateTime st with Some s => Some s | None => st_date st end)
    as [start |] eqn:Hstart.
  2:{ split.
      - intros [= <-]. right. right. left. exists st, title. auto.
      - intros [[H _] | [(st' & _ & H & _)
                        | [(st' & t & _ & _ & _ & ->)
                          | (st' & t & s & [= <-] & _ & H & _)]]];
          [discriminate H | discriminate H | reflexivity |].
        rewrite Hstart in H. discriminate H. }
  split.
  - intros H. right. right. right. exists st, title, start.
    repeat split; [exact Hstart |].
    destruct (fromisoformat start) as [ex' | sd]; [congruence |].
    destruct (mins_left_total sd clock) as (m & Hm & _).
    rewrite Hm in H. discriminate H.
  - intros [[H _] | [(st' & _ & H & _)
                    | [(st' & t & [= <-] & _ & H & _)
                      | (st' & t & s & [= <-] & _ & H & Hparse)]]];
      try discriminate H.
    + rewrite Hstart in H. discriminate H.
    + rewrite Hstart in H. injection H as <-. rewrite Hparse. reflexivity.
Qed.

(** X11.  The minutes left are always computed, whatever the start and the
    clock: the subtraction never mixes a naive and an aware value, since
    the offset of the start is dropped first.  The result lies between 0
    and 1440, and it is the same for every UTC offset the start may carry:
    only the digits of its date and time count. *)
Theorem X11_minutes_left_total_and_offset_blind
        (start_datetime clock : Datetime.datetime) :
  exists m,
    mins_left start_datetime (Datetime.now clock) = inr m
    /\ 0 <= m <= 1440
    /\ forall tz,
        mins_left (with_tzinfo start_datetime tz) (Datetime.now clock)
        = inr m.
Proof.
  destruct (mins_left_total start_datetime clock) as (m & Hm & Hrange).
  exists m. repeat split; [exact Hm | lia | lia |].
  intros tz. rewrite <- Hm. reflexivity.
Qed.

(** X12.  No alert ever carries fewer than 0 or more than 1440 minutes: an
    entry of [MINUTES_LEFT] outside that range never triggers a
    reminder. *)
Theorem X12_alert_minutes_within_a_day
        (fromisoformat : string -> exn + Datetime.datetime) (cfg : config)
        (clock : Datetime.datetime) (events : list event)
        (alerts : list Alert) :
  result (collect_alerts fromisoformat cfg (Datetime.now clock) events [])
  = inr alerts ->
  Forall (fun a => 0 <= minutes_left a <= 1440) alerts.
Proof.
  intros H.
  apply collect_alerts_from_events in H as (new & -> & Hnew).
  cbn [app]. eapply Forall_impl; [| exact Hnew].
  intros a (ev & sd & _ & _ & _ & Hm & _).
  destruct (mins_left_total sd clock) as (m & Hm' & Hrange).
  rewrite Hm in Hm'. injection Hm' as ->. exact Hrange.
Qed.

Lemma X12_witness :
  Forall (fun a => 0 <= minutes_left a <= 1440)
         [mk_Alert "Standup" "2026-11-04T10:05:00-03:00" 5;
          mk_Alert "Dentist" "2026-11-05T10:01:00-03:00" 1].
Proof.
  apply (X12_alert_minutes_within_a_day Datetime.fromisoformat_basic settings
           (Sample.at_ 2026 11 4 10 0 0)
           [Sample.standup; Sample.tomorrow]).
  reflexivity.
Defined.

(** X13.  The minutes left depend on the time of day of the start only:
    two starts a whole number of days apart get the same minutes left at
    any clock reading, whichever the day. *)
Theorem X13_minutes_left_ignore_the_date
        (start1 start2 clock : Datetime.datetime) (k : Z) :
  Datetime.instant start2
  = Datetime.instant start1 + k * 86400 * 1000000 ->
  mins_left start2 (Datetime.now clock)
  = mins_left start1 (Datetime.now clock).
Proof.
  intros Hshift. rewrite !mins_left_seconds, Hshift.
  replace (Datetime.instant start1 + k * 86400 * 1000000
           - Datetime.instant clock)
    with ((k * 86400) * 1000000
          + (Datetime.instant start1 - Datetime.instant clock)) by ring.
  rewrite Z.div_add_l by lia.
  rewrite Z.add_comm, Z.mod_add by lia.
  reflexivity.
Qed.

Lemma X13_witness :
  mins_left (Sample.at_ 2026 12 25 10 5 0)
            (Datetime.now (Sample.at_ 2026 11 4 10 0 0))
  = mins_left (Sample.at_ 2026 11 4 10 5 0)
              (Datetime.now (Sample.at_ 2026 11 4 10 0 0)).
Proof.
  apply (X13_minutes_left_ignore_the_date
           (Sample.at_ 2026 11 4 10 5 0) (Sample.at_ 2026 12 25 10 5 0)
           (Sample.at_ 2026 11 4 10 0 0) 51).
  reflexivity.
Defined.

Lemma round_div_window (n m : Z) :
  Py.round_div n 60 = m
  <-> 60 * m - 30 < n < 60 * m + 30
      \/ (Z.even m = true /\ (n = 60 * m - 30 \/ n = 60 * m + 30)).
Proof.
  unfold Py.round_div.
  pose proof (Z.div_mod n 60 ltac:(lia)) as Hdm.
  pose proof (Z.mod_pos_bound n 60 ltac:(lia)) as Hr.
  destruct (Z.ltb_spec (2 * (n mod 60)) 60) as [Hlt | Hge].
  { split; [intros <-; left; lia |].
    intros [H | [_ [H | H]]]; lia. }
  destruct (Z.ltb_spec 60 (2 * (n mod 60))) as [Hgt | Hle].
  { split; [intros <-; left; lia |].
    intros [H | [_ [H | H]]]; lia. }
  assert (Hhalf : n mod 60 = 30) by lia.
  destruct (Z.even (n / 60)) eqn:Hq.
  - split.
    + intros <-. right. split; [exact Hq | right; lia].
    + intros [H | [Hm [H | H]]]; [lia | | lia].
      assert (Hpred : n / 60 = m - 1) by lia.
      rewrite Hpred in Hq.
      replace m with (Z.succ (m - 1)) in Hm by lia.
      rewrite Z.even_succ, <- Z.negb_even, Hq in Hm. discriminate Hm.
  - split.
    + intros <-. right. split; [| left; lia].
      replace (n / 60 + 1) with (Z.succ (n / 60)) by lia.
      rewrite Z.even_succ, <- Z.negb_even, Hq. reflexivity.
    + intros [H | [Hm [H | H]]]; [lia | lia |].
      assert (Heq : n / 60 = m) by lia.
      rewrite Heq in Hq. rewrite Hq in Hm. discriminate Hm.
Qed.

(** X14.  Less than a day ahead, an event [delta] whole seconds away has
    [m] minutes left exactly when [delta] is strictly within 30 seconds of
    [m] minutes, or exactly 30 seconds away from it with [m] even: the
    reminder for an odd entry of [MINUTES_LEFT] fires on an open window of
    one minute, the one for an even entry on the closed one. *)
Theorem X14_when_an_event_has_m_minutes_left
        (start_datetime clock : Datetime.datetime) (delta frac m : Z) :
  Datetime.instant start_datetime - Datetime.instant clock
  = delta * 1000000 + frac ->
  0 <= frac < 1000000 ->
  0 <= delta < 86400 ->
  mins_left start_datetime (Datetime.now clock) = inr m
  <-> 60 * m - 30 < delta < 60 * m + 30
      \/ (Z.even m = true /\ (delta = 60 * m - 30 \/ delta = 60 * m + 30)).
Proof.
  intros Hdist Hfrac Hdelta.
  rewrite (mins_left_within_a_day _ _ _ _ Hdist Hfrac Hdelta).
  rewrite <- round_div_window. split; [intros [= ->] | intros ->]; reflexivity.
Qed.

Lemma X14_witness :
  mins_left (Sample.at_ 2026 11 4 10 10 30)
            (Datetime.now (Sample.at_ 2026 11 4 10 0 0)) = inr 10
  <-> 60 * 10 - 30 < 630 < 60 * 10 + 30
      \/ (Z.even 10 = true /\ (630 = 60 * 10 - 30 \/ 630 = 60 * 10 + 30)).
Proof.
  apply (X14_when_an_event_has_m_minutes_left
           (Sample.at_ 2026 11 4 10 10 30) (Sample.at_ 2026 11 4 10 0 0)
           630 0 10).
  - reflexivity.
  - lia.
  - lia.
Defined.

(** ** Sleep hours, as a set of windows *)

Lemma sleep_hours_skip_app (h : Z) (hours1 hours2 : list (Z * Z)) :
  sleep_hours_skip h (hours1 ++ hours2)
  = sleep_hours_skip h hours1 || sleep_hours_skip h hours2.
Proof.
  induction hours1 as [| [s e] hours1 IH]; [reflexivity |].
  cbn [app sleep_hours_skip].
  destruct (if (e <? s) && ((s <=? h) || (h <=? e)) then true
            else if (s <=? h) && (h <=? e) then true else false);
    [reflexivity | exact IH].
Qed.

(** X15.  [SLEEP_HOURS] acts as a set: the windows of two lists put
    together silence the hours that either list silences, so adding a
    window never wakes an hour up, and the order in which the windows are
    written does not matter. *)
Theorem X15_sleep_hours_is_a_union :
  (forall h hours1 hours2,
      sleep_hours_skip h (hours1 ++ hours2)
      = sleep_hours_skip h hours1 || sleep_hours_skip h hours2)
  /\ (forall h hours hours',
         Permutation hours hours' ->
         sleep_hours_skip h hours = sleep_hours_skip h hours').
Proof.
  split; [apply sleep_hours_skip_app |].
  intros h hours hours' Hperm.
  induction Hperm as [| w l l' _ IH | w1 w2 l | l1 l2 l3 _ IH1 _ IH2].
  - reflexivity.
  - change (w :: l) with ([w] ++ l)%list.
    change (w :: l') with ([w] ++ l')%list.
    rewrite !sleep_hours_skip_app, IH. reflexivity.
  - change (w2 :: w1 :: l) with ([w2] ++ [w1] ++ l)%list.
    change (w1 :: w2 :: l) with ([w1] ++ [w2] ++ l)%list.
    rewrite !sleep_hours_skip_app.
    destruct (sleep_hours_skip h [w1]), (sleep_hours_skip h [w2]);
      reflexivity.
  - rewrite IH1. exact IH2.
Qed.

(** ** [create_service] and the token file *)

Module ServiceFacts.
Import Service.

Lemma create_service_valid (w : answers) (c : credentials) :
  valid c = true ->
  create_service w (Some (inr c))
  = ([Load "token.pickle"; Build "calendar" "v3" c],
     Some (inr c),
     match build w with
     | None => inr c
     | Some ex => inl ex
     end).
Proof.
  intros Hvalid. unfold create_service, bind, exists_token, load_token.
  cbn. rewrite Hvalid. cbn. destruct (build w); reflexivity.
Qed.

Lemma create_service_refresh (w : answers) (c : credentials) :
  valid c = false ->
  expired c = true ->
  truthy (refresh_token c) = true ->
  create_service w (Some (inr c))
  = match refresh w c with
    | inl ex => ([Load "token.pickle"; Refresh c], Some (inr c), inl ex)
    | inr c' =>
        match open_wb w with
        | Some ex =>
            ([Load "token.pickle"; Refresh c; Dump c' "token.pickle"],
             Some (inr c), inl ex)
        | None =>
            match dump w with
            | Some ex =>
                ([Load "token.pickle"; Refresh c; Dump c' "token.pickle"],
                 Some (inl (torn w)), inl ex)
            | None =>
                ([Load "token.pickle"; Refresh c; Dump c' "token.pickle";
                  Build "calendar" "v3" c'],
                 Some (inr c'),
                 match build w with
                 | None => inr c'
                 | Some ex => inl ex
                 end)
            end
        end
    end.
Proof.
  intros Hvalid Hexpired Htoken.
  unfold create_service, renew, bind, exists_token, load_token, dump_token.
  cbn. rewrite Hvalid, Hexpired, Htoken. cbn.
  destruct (refresh w c) as [ex | c']; cbn; [reflexivity |].
  destruct (open_wb w) as [ex |]; cbn; [reflexivity |].
  destruct (dump w) as [ex |]; cbn; [reflexivity |].
  destruct (build w); reflexivity.
Qed.

(** The call when the browser flow is taken: [loaded] is the load of the
    stored credentials, if any. *)
Lemma create_service_flow (w : answers) (file : token_file)
      (loaded : list action) :
  (file = None /\ loaded = [])
  \/ (exists c,
         file = Some (inr c) /\ loaded = [Load "token.pickle"]
         /\ valid c = false
         /\ expired c && truthy (refresh_token c) = false) ->
  create_service w file
  = match client_secrets w with
    | Some ex =>
        ((loaded ++ [FromClientSecrets "credentials.json" SCOPES])%list,
         file, inl ex)
    | None =>
        match local_server w with
        | inl ex =>
            ((loaded ++ [FromClientSecrets "credentials.json" SCOPES;
                         RunLocalServer])%list,
             file, inl ex)
        | inr c' =>
            match open_wb w with
            | Some ex =>
                ((loaded ++ [FromClientSecrets "credentials.json" SCOPES;
                             RunLocalServer; Dump c' "token.pickle"])%list,
                 file, inl ex)
            | None =>
                match dump w with
                | Some ex =>
                    ((loaded
                        ++ [FromClientSecrets "credentials.json" SCOPES;
                            RunLocalServer; Dump c' "token.pickle"])%list,
                     Some (inl (torn w)), inl ex)
                | None =>
                    ((loaded
                        ++ [FromClientSecrets "credentials.json" SCOPES;
                            RunLocalServer; Dump c' "token.pickle";
                            Build "calendar" "v3" c'])%list,
                     Some (inr c'),
                     match build w with
                     | None => inr c'
                     | Some ex => inl ex
                     end)
                end
            end
        end
    end.
Proof.
  intros [[-> ->] | (c & -> & -> & Hvalid & Hrefresh)];
    unfold create_service, renew, run_flow, bind, exists_token, load_token,
      dump_token, may_raise; cbn; rewrite ?Hvalid, ?Hrefresh; cbn;
    (destruct (client_secrets w) as [ex |]; cbn; [reflexivity |]);
    (destruct (local_server w) as [ex | c']; cbn; [reflexivity |]);
    (destruct (open_wb w) as [ex |]; cbn; [reflexivity |]);
    (destruct (dump w) as [ex |]; cbn; [reflexivity |]);
    destruct (build w); reflexivity.
Qed.

Lemma create_service_unreadable (w : answers) (ex : exn) :
  create_service w (Some (inl ex))
  = ([Load "token.pickle"], Some (inl ex), inl ex).
Proof. reflexivity. Qed.

End ServiceFacts.

(** X16.  Stored credentials that are still valid are used as they are:
    [create_service] loads them and builds the service from them, without
    refreshing, without the browser flow, and without writing the token
    file. *)
Theorem X16_valid_token_is_reused (w : Service.answers)
        (c : Service.credentials) :
  Service.valid c = true ->
  Service.create_service w (Some (inr c))
  = ([Service.Load "token.pickle"; Service.Build "calendar" "v3" c],
     Some (inr c),
     match Service.build w with
     | None => inr c
     | Some ex => inl ex
     end).
Proof. apply ServiceFacts.create_service_valid. Qed.

Lemma X16_witness :
  Service.create_service Sample.refresh_refused (Some (inr Sample.good))
  = ([Service.Load "token.pickle";
      Service.Build "calendar" "v3" Sample.good],
     Some (inr Sample.good), inr Sample.good).
Proof.
  apply (X16_valid_token_is_reused Sample.refresh_refused Sample.good).
  reflexivity.
Defined.

(** X17.  Stored credentials that are invalid, expired and carry a refresh
    token are refreshed: when the refresh succeeds, the token file opens
    and the dump into it succeeds, the refreshed credentials are saved to
    it and the service is built from them. *)
Theorem X17_expired_token_is_refreshed_and_saved (w : Service.answers)
        (c c' : Service.credentials) :
  Service.valid c = false ->
  Service.expired c = true ->
  Service.truthy (Service.refresh_token c) = true ->
  Service.refresh w c = inr c' ->
  Service.open_wb w = None ->
  Service.dump w = None ->
  Service.create_service w (Some (inr c))
  = ([Service.Load "token.pickle"; Service.Refresh c;
      Service.Dump c' "token.pickle"; Service.Build "calendar" "v3" c'],
     Some (inr c'),
     match Service.build w with
     | None => inr c'
     | Some ex => inl ex
     end).
Proof.
  intros Hvalid Hexpired Htoken Hrefresh Hopen Hdump.
  rewrite (ServiceFacts.create_service_refresh w c Hvalid Hexpired Htoken).
  rewrite Hrefresh, Hopen, Hdump. reflexivity.
Qed.

Lemma X17_witness :
  Service.create_service Sample.all_well (Some (inr Sample.stale))
  = ([Service.Load "token.pickle"; Service.Refresh Sample.stale;
      Service.Dump Sample.good "token.pickle";
      Service.Build "calendar" "v3" Sample.good],
     Some (inr Sample.good), inr Sample.good).
Proof.
  apply (X17_expired_token_is_refreshed_and_saved Sample.all_well
           Sample.stale Sample.good); reflexivity.
Defined.

(** X18.  With stored credentials that are valid, or expired with a
    refresh token, the browser flow is never started, whatever the outside
    answers: when the refresh is refused, [create_service] raises that
    exception, leaves the token file as it was and builds nothing; it does
    not fall back to asking the user. *)
Theorem X18_no_browser_flow_when_refreshable (w : Service.answers)
        (c : Service.credentials) :
  Service.valid c = true
  \/ (Service.expired c = true
      /\ Service.truthy (Service.refresh_token c) = true) ->
  filter Service.is_interactive
         (fst (fst (Service.create_service w (Some (inr c))))) = []
  /\ forall ex,
      Service.valid c = false ->
      Service.refresh w c = inl ex ->
      Service.create_service w (Some (inr c))
      = ([Service.Load "token.pickle"; Service.Refresh c],
         Some (inr c), inl ex).
Proof.
  intros Hcase.
  destruct (Service.valid c) eqn:Hvalid.
  - rewrite (ServiceFacts.create_service_valid w c Hvalid).
    split; [reflexivity | intros ex H; discriminate H].
  - destruct Hcase as [H | [Hexpired Htoken]]; [discriminate H |].
    rewrite (ServiceFacts.create_service_refresh w c Hvalid Hexpired Htoken).
    split.
    + destruct (Service.refresh w c) as [ex | c']; [reflexivity |].
      destruct (Service.open_wb w); [reflexivity |].
      destruct (Service.dump w); reflexivity.
    + intros ex _ ->. reflexivity.
Qed.

Lemma X18_witness :
  Service.create_service Sample.refresh_refused (Some (inr Sample.stale))
  = ([Service.Load "token.pickle"; Service.Refresh Sample.stale],
     Some (inr Sample.stale),
     inl (Exception "RefreshError" "invalid_grant")).
Proof.
  refine (proj2 (X18_no_browser_flow_when_refreshable Sample.refresh_refused
                   Sample.stale _)
                (Exception "RefreshError" "invalid_grant") _ _).
  - right. split; reflexivity.
  - reflexivity.
  - reflexivity.
Defined.

(** X19.  Without a token file, or with stored credentials that are
    invalid and cannot be refreshed (not expired, or no refresh token),
    [create_service] runs the browser flow on [credentials.json] with the
    read-only calendar scope; when the flow succeeds, the token file
    opens and the dump into it succeeds, the new credentials replace the
    stored ones and the service is built from them. *)
Theorem X19_browser_flow_when_no_usable_token (w : Service.answers)
        (file : Service.token_file) (loaded : list Service.action)
        (c' : Service.credentials) :
  (file = None /\ loaded = [])
  \/ (exists c,
         file = Some (inr c) /\ loaded = [Service.Load "token.pickle"]
         /\ Service.valid c = false
         /\ Service.expired c && Service.truthy (Service.refresh_token c)
            = false) ->
  Service.client_secrets w = None ->
  Service.local_server w = inr c' ->
  Service.open_wb w = None ->
  Service.dump w = None ->
  Service.create_service w file
  = ((loaded
        ++ [Service.FromClientSecrets
              "credentials.json"
              ["https://www.googleapis.com/auth/calendar.readonly"];
            Service.RunLocalServer;
            Service.Dump c' "token.pickle";
            Service.Build "calendar" "v3" c'])%list,
     Some (inr c'),
     match Service.build w with
     | None => inr c'
     | Some ex => inl ex
     end).
Proof.
  intros Hcase Hsecrets Hserver Hopen Hdump.
  rewrite (ServiceFacts.create_service_flow w file loaded Hcase).
  rewrite Hsecrets, Hserver, Hopen, Hdump. reflexivity.
Qed.

Lemma X19_witness :
  Service.create_service Sample.all_well (Some (inr Sample.dead))
  = ([Service.Load "token.pickle";
      Service.FromClientSecrets
        "credentials.json"
        ["https://www.googleapis.com/auth/calendar.readonly"];
      Service.RunLocalServer;
      Service.Dump Sample.good "token.pickle";
      Service.Build "calendar" "v3" Sample.good],
     Some (inr Sample.good), inr Sample.good).
Proof.
  apply (X19_browser_flow_when_no_usable_token Sample.all_well
           (Some (inr Sample.dead)) [Service.Load "token.pickle"]
           Sample.good).
  - right. exists Sample.dead. repeat split.
  - reflexivity.
  - reflexivity.
  - reflexivity.
  - reflexivity.
Defined.

Lemma token_file_cases (file : Service.token_file) :
  file = None
  \/ (exists ex, file = Some (inl ex))
  \/ (exists c, file = Some (inr c) /\ Service.valid c = true)
  \/ (exists c,
         file = Some (inr c) /\ Service.valid c = false
         /\ Service.expired c = true
         /\ Service.truthy (Service.refresh_token c) = true)
  \/ (exists c,
         file = Some (inr c) /\ Service.valid c = false
         /\ Service.expired c && Service.truthy (Service.refresh_token c)
            = false).
Proof.
  destruct file as [[ex | c] |]; [right; left; eauto | | left; reflexivity].
  right. right.
  destruct (Service.valid c) eqn:Hvalid; [left; eauto |].
  right.
  destruct (Service.expired c) eqn:Hexpired;
    destruct (Service.truthy (Service.refresh_token c)) eqn:Htoken;
    [left; eauto | right; exists c; rewrite Hexpired, Htoken; auto ..].
Qed.



(** X21.  When [create_service] returns, the service was built from the
    very credentials the token file now holds; and if these are valid, the
    next call, whatever the outside answers then, only loads them and
    builds the service again, leaving the file alone. *)
Theorem X21_what_is_built_is_what_is_stored (w : Service.answers)
        (file file' : Service.token_file) (t : list Service.action)
        (c : Service.credentials) :
  Service.create_service w file = (t, file', inr c) ->
  file' = Some (inr c)
  /\ In (Service.Build "calendar" "v3" c) t
  /\ (Service.valid c = true ->
      forall w',
        Service.create_service w' file'
        = ([Service.Load "token.pickle"; Service.Build "calendar" "v3" c],
           file',
           match Service.build w' with
           | None => inr c
           | Some ex => inl ex
           end)).
Proof.
  intros H.
  assert (Hgoal : file' = Some (inr c)
                  /\ In (Service.Build "calendar" "v3" c) t).
  { destruct (token_file_cases file)
      as [-> | [(ex0 & ->) | [(c0 & -> & Hvalid)
                             | [(c0 & -> & Hvalid & Hexpired & Htoken)
                               | (c0 & -> & Hvalid & Hrefresh)]]]].
    - rewrite (ServiceFacts.create_service_flow w None [])
        in H by (left; auto).
      destruct (Service.client_secrets w); [discriminate H |].
      destruct (Service.local_server w) as [ex1 | c']; [discriminate H |].
      destruct (Service.open_wb w); [discriminate H |].
      destruct (Service.dump w); [discriminate H |].
      destruct (Service.build w); [discriminate H |].
      injection H as <- <- <-. cbn. auto 6.
    - rewrite ServiceFacts.create_service_unreadable in H. discriminate H.
    - rewrite (ServiceFacts.create_service_valid w c0 Hvalid) in H.
      destruct (Service.build w); [discriminate H |].
      injection H as <- <- <-. cbn. auto.
    - rewrite (ServiceFacts.create_service_refresh w c0 Hvalid Hexpired Htoken)
        in H.
      destruct (Service.refresh w c0) as [ex1 | c']; [discriminate H |].
      destruct (Service.open_wb w); [discriminate H |].
      destruct (Service.dump w); [discriminate H |].
      destruct (Service.build w); [discriminate H |].
      injection H as <- <- <-. cbn. auto 6.
    - rewrite (ServiceFacts.create_service_flow w (Some (inr c0))
                 [Service.Load "token.pickle"])
        in H by (right; exists c0; auto).
      destruct (Service.client_secrets w); [discriminate H |].
      destruct (Service.local_server w) as [ex1 | c']; [discriminate H |].
      destruct (Service.open_wb w); [discriminate H |].
      destruct (Service.dump w); [discriminate H |].
      destruct (Service.build w); [discriminate H |].
      injection H as <- <- <-. cbn. auto 7. }
  destruct Hgoal as [-> Hbuilt]. repeat split; [exact Hbuilt |].
  intros Hvalid w'. apply ServiceFacts.create_service_valid. exact Hvalid.
Qed.

Lemma X21_witness :
  Service.create_service Sample.refresh_refused (Some (inr Sample.good))
  = ([Service.Load "token.pickle";
      Service.Build "calendar" "v3" Sample.good],
     Some (inr Sample.good), inr Sample.good).
Proof.
  refine (proj2 (proj2 (X21_what_is_built_is_what_is_stored Sample.all_well
                          None (Some (inr Sample.good))
                          [Service.FromClientSecrets
                             "credentials.json" Service.SCOPES;
                           Service.RunLocalServer;
                           Service.Dump Sample.good "token.pickle";
                           Service.Build "calendar" "v3" Sample.good]
                          Sample.good _))
                _ Sample.refresh_refused);
    reflexivity.
Defined.

(** ** A whole cycle *)

(** X22.  Outside the sleep hours, with the service created and every
    listed event readable, a cycle does exactly this: it fetches; if the
    scan matched no event it calls nothing more and returns; otherwise it
    calls [notify-send] once, for all the matched events in the order
    listed, and, if that call returns, the audio command once.
    [monitor_events] returns normally when every command it called could
    be started, and raises the error of the first that could not. *)
Theorem X22_cycle_reminds_of_the_matched_events
        (fromisoformat : string -> exn + Datetime.datetime) (cfg : config)
        (c : cycle) (events : list event) :
  service c = None ->
  sleep_hours_skip (Datetime.hour (Datetime.now (clock c))) (SLEEP_HOURS cfg)
    = false ->
  events_result c = inr (Some events) ->
  Forall (readable fromisoformat cfg (Datetime.now (clock c))) events ->
  monitor_events fromisoformat cfg c
  = match matched fromisoformat cfg (Datetime.now (clock c)) events with
    | [] =>
        ([CreateService;
          EventsList "primary" (utcnow_isoformat c ++ "Z") 10 true
                     "startTime"],
         inr tt)
    | a :: rest =>
        match launch c (notify_argv cfg (a :: rest)) with
        | Some ex =>
            ([CreateService;
              EventsList "primary" (utcnow_isoformat c ++ "Z") 10 true
                         "startTime";
              Popen (notify_argv cfg (a :: rest))],
             inl ex)
        | None =>
            ([CreateService;
              EventsList "primary" (utcnow_isoformat c ++ "Z") 10 true
                         "startTime";
              Popen (notify_argv cfg (a :: rest));
              Popen (AUDIO_PLAY_CMD cfg)],
             launched (launch c (AUDIO_PLAY_CMD cfg)))
        end
    end.
Proof.
  intros Hsvc Hskip Hreply Hall.
  rewrite (monitor_events_scanned fromisoformat cfg c (Some events)
             (matched fromisoformat cfg (Datetime.now (clock c)) events)
             Hsvc Hskip Hreply).
  - destruct (matched fromisoformat cfg (Datetime.now (clock c)) events)
      as [| a rest]; [reflexivity |].
    rewrite (display_reminder_calls cfg (launch c) a rest).
    destruct (launch c (notify_argv cfg (a :: rest))); reflexivity.
  - pose proof (collect_alerts_readable fromisoformat cfg
                  (Datetime.now (clock c)) events [] [] Hall) as Hscan.
    rewrite app_nil_r in Hscan. rewrite Hscan. reflexivity.
Qed.

Lemma X22_witness :
  monitor_events Datetime.fromisoformat_basic settings
    (Sample.at_ten (inr (Some [Sample.all_day "2026-11-07" "Holiday";
                               Sample.standup])))
  = ([CreateService;
      EventsList "primary" "2026-11-04T13:00:00.000250Z" 10 true "startTime";
      Popen ["notify-send"; "-t"; "50000"; "Upcoming event: Standup";
             "In 5 minutes [2026-11-04T10:05:00-03:00] -> Standup"];
      Popen ["play"; "5glasses.ogg"]],
     inr tt).
Proof.
  apply (X22_cycle_reminds_of_the_matched_events Datetime.fromisoformat_basic
           settings
           (Sample.at_ten (inr (Some [Sample.all_day "2026-11-07" "Holiday";
                                      Sample.standup])))
           [Sample.all_day "2026-11-07" "Holiday"; Sample.standup]).
  - reflexivity.
  - reflexivity.
  - reflexivity.
  - repeat constructor; eexists; reflexivity.
Defined.
